(** * The Olarm Sensors configuration wizard (config_flow.py)

    A shallow embedding of [custom_components/olarm_sensors/config_flow.py]:
    the initial setup step [OlarmSensorsConfigFlow.async_step_user] and the
    options step [OlarmOptionsFlow.async_step_init], together with the
    properties of the persisted configuration record.

    Python dictionaries are finite maps ([gmap string _]); a missing key
    raises [KeyError].  Exceptions are an explicit result ([outcome]); the
    setup step also threads the part of the host state it touches
    ([hass.data]) and a log of the calls made to the external collaborators
    (the API client, the coordinator, the logger, [asyncio.sleep]). *)

From Stdlib Require Import ZArith.
From stdpp Require Import gmap strings list fin_maps.

Local Open Scope Z_scope.
Local Open Scope string_scope.
Local Open Scope list_scope.
Local Open Scope stdpp_scope.

(** ** Python values *)

(** A device description as returned by the remote service; the flow reads
    exactly these four keys of each device dictionary. *)
Record Device := {
  deviceName : string;
  deviceFirmware : string;
  deviceId : string;
  deviceAlarmType : string;
}.

(** The values that occur in submitted forms and in entry data. *)
Inductive value :=
  | VNone
  | VStr (s : string)
  | VInt (z : Z)
  | VList (l : list string)
  | VDevices (l : list Device).

(** The exceptions the flow can meet.  [ExternalError] stands for any
    exception class other than [APIForbiddenError] raised by a collaborator. *)
Inductive exn :=
  | APIForbiddenError
  | UnboundLocalError (name : string)
  | IndexError
  | KeyError (key : string)
  | TypeError
  | ValueError
  | ExternalError (msg : string).

Inductive outcome (A : Type) :=
  | Ret (a : A)
  | Raise (e : exn).
Arguments Ret {A} a.
Arguments Raise {A} e.

#[global] Instance outcome_ret : MRet outcome := λ A a, Ret a.
#[global] Instance outcome_bind : MBind outcome := λ A B f m,
  match m with
  | Ret a => f a
  | Raise e => Raise e
  end.

(** [d[k]] on a dictionary. *)
Definition getitem {V} (d : gmap string V) (k : string) : outcome V :=
  match d !! k with
  | Some v => Ret v
  | None => Raise (KeyError k)
  end.

(** A dictionary display [{k1: v1, ..., kn: vn}]: the pairs are stored from
    left to right, so a later duplicate key wins. *)
Definition dict {V} (items : list (string * V)) : gmap string V :=
  foldl (λ m kv, <[kv.1 := kv.2]> m) ∅ items.

(** Truth value testing: [not v]. *)
Definition py_not (v : value) : bool :=
  match v with
  | VNone => true
  | VStr s => bool_decide (s = "")
  | VInt z => bool_decide (z = 0)
  | VList l => bool_decide (l = [])
  | VDevices l => match l with [] => true | _ => false end
  end.

(** [v < n] for an integer literal [n]; only integers are ordered with it. *)
Definition py_lt_int (v : value) (n : Z) : outcome bool :=
  match v with
  | VInt z => Ret (bool_decide (z < n))
  | _ => Raise TypeError
  end.

(** [v == s] for a string literal [s]. *)
Definition py_eq_str (v : value) (s : string) : bool :=
  match v with
  | VStr s' => bool_decide (s' = s)
  | _ => false
  end.

(** [len(v)]. *)
Definition py_len (v : value) : outcome Z :=
  match v with
  | VStr s => Ret (Z.of_nat (String.length s))
  | VList l => Ret (Z.of_nat (length l))
  | VDevices l => Ret (Z.of_nat (length l))
  | VNone | VInt _ => Raise TypeError
  end.

(** ** Constants and collaborators that live outside this file *)

(** The key names imported from [homeassistant.const] and from [.const].
    Their spellings are not part of this file, so they are parameters. *)
Class Const := {
  CONF_API_KEY : string;
  CONF_SCAN_INTERVAL : string;
  AUTHENTICATION_ERROR : string;
  CONF_ALARM_CODE : string;
  CONF_DEVICE_FIRMWARE : string;
  CONF_OLARM_DEVICES : string;
  DOMAIN : string;
  OLARM_DEVICE_AMOUNT : string;
  OLARM_DEVICE_NAMES : string;
  OLARM_DEVICES : string;
}.

(** The builtin [int(s)] on a string (its parser is not modelled). *)
Class Builtins := {
  int_of_str : string → outcome Z;
}.

(** [int(v)]. *)
Definition py_int `{Builtins} (v : value) : outcome Z :=
  match v with
  | VInt z => Ret z
  | VStr s => int_of_str s
  | VNone | VList _ | VDevices _ => Raise TypeError
  end.

(** ** Host framework objects *)

Record ConfigEntry := {
  entry_domain : string;
  entry_source : string;
  entry_version : Z;
  entry_minor_version : Z;
  entry_title : string;
  entry_data : gmap string value;
}.

(** [OlarmCoordinator(hass, entry=..., device_id=..., device_name=...,
    device_make=...)]. *)
Record OlarmCoordinator := {
  coordinator_entry : ConfigEntry;
  device_id : string;
  device_name : string;
  device_make : string;
}.

(** Form schemas: a [vol.Schema] is a dictionary from markers to
    validators, kept here in source order. *)
Inductive marker :=
  | Required (key : string) (default : option value)
  | Optional (key : string) (default : option value).

Inductive validator :=
  | cv_string
  | coerce_int_range (min : Z)
  | cv_multi_select (options : value).

Definition Schema := list (marker * validator).

Definition marker_key (m : marker) : string :=
  match m with Required k _ | Optional k _ => k end.

Definition marker_default (m : marker) : option value :=
  match m with Required _ d | Optional _ d => d end.

(** The default the form displays for the field [k], if it has one. *)
Fixpoint schema_default (s : Schema) (k : string) : option value :=
  match s with
  | [] => None
  | (m, _) :: s' =>
      if bool_decide (marker_key m = k) then marker_default m
      else schema_default s' k
  end.

Inductive FlowResult :=
  | async_show_form (step_id : string) (data_schema : Schema)
      (errors : option (gmap string string))
  | async_create_entry (title : string) (data : gmap string value).

(** ** The world around the setup step *)

(** The calls the setup step makes to its collaborators, in order. *)
Inductive event :=
  | EvGetOlarmDevices (api_key : value)
  | EvLogWarning (msg : string)
  | EvSleep (seconds : Z)
  | EvUpdateData (c : OlarmCoordinator).

(** The collaborators, by what this flow can observe of them: a call
    returns or raises. [get_olarm_devices k] is
    [OlarmSetupApi(k).get_olarm_devices()], whose result is a list of
    devices or [None]. *)
Record World := {
  get_olarm_devices : value → outcome (option (list Device));
  update_data : OlarmCoordinator → outcome unit;
}.

(** [hass.data] (a dictionary of per-domain dictionaries) and the log. *)
Record FlowState := {
  hass_data : gmap string (gmap string OlarmCoordinator);
  trace : list event;
}.

(** Effectful code: a state transformer that may raise; the state changes
    made before an exception are kept. *)
Definition Flow (A : Type) : Type := FlowState → outcome A * FlowState.

#[global] Instance Flow_ret : MRet Flow := λ A a st, (Ret a, st).
#[global] Instance Flow_bind : MBind Flow := λ A B f m st,
  match m st with
  | (Ret a, st') => f a st'
  | (Raise e, st') => (Raise e, st')
  end.

Definition lift {A} (o : outcome A) : Flow A := λ st, (o, st).

(** The state after some more calls have been logged. *)
Definition log (st : FlowState) (evs : list event) : FlowState :=
  {| hass_data := hass_data st; trace := trace st ++ evs |}.

Definition emit (e : event) : Flow unit := λ st, (Ret tt, log st [e]).

(** [try: body except E: handler], where [handler e] is [None] when the
    clause does not match the exception [e]. *)
Definition try_except {A} (body : Flow A) (handler : exn → option (Flow A))
  : Flow A := λ st,
  match body st with
  | (Ret a, st') => (Ret a, st')
  | (Raise e, st') =>
      match handler e with
      | Some h => h st'
      | None => (Raise e, st')
      end
  end.

(** Reading a local variable that may not have been assigned yet. *)
Definition load_local {A} (name : string) (x : option A) : Flow A :=
  match x with
  | Some a => mret a
  | None => lift (Raise (UnboundLocalError name))
  end.

(** The number of device enumerations in a log. *)
Definition is_enumeration (e : event) : bool :=
  match e with
  | EvGetOlarmDevices _ => true
  | _ => false
  end.

Definition enumeration_calls (t : list event) : nat :=
  length (List.filter is_enumeration t).

(** ** class OlarmSensorsConfigFlow *)

Module OlarmSensorsConfigFlow.
Section Flow.
Context `{Const} (w : World).

(** [_get_schema]: the setup form asks for the API key, the scan interval
    and the alarm code. *)
Definition _get_schema : Schema :=
  [ (Required CONF_API_KEY None, cv_string);
    (Required CONF_SCAN_INTERVAL None, coerce_int_range 8);
    (Optional CONF_ALARM_CODE (Some (VStr "1234567890")), cv_string) ].

(** [_show_setup_form(errors)]; the form carries [errors or {}]. *)
Definition _show_setup_form (errors : option (gmap string string))
  : Flow FlowResult :=
  mret (async_show_form "user" _get_schema (Some (default ∅ errors))).

(** Lines 50-57: the checks on the submitted API key and scan interval. *)
Definition validate (user_input : gmap string value)
  : outcome (gmap string string) :=
  let errors : gmap string string := ∅ in
  api_key ← getitem user_input CONF_API_KEY;
  let errors :=
    if py_not api_key
    then <[CONF_API_KEY := "API key is required."]> errors
    else errors in
  scan_interval ← getitem user_input CONF_SCAN_INTERVAL;
  if py_not scan_interval
  then mret (<[CONF_SCAN_INTERVAL := "Scan interval is required."]> errors)
  else
    scan_interval ← getitem user_input CONF_SCAN_INTERVAL;
    below ← py_lt_int scan_interval 8;
    mret (if below : bool
          then <[CONF_SCAN_INTERVAL :=
                   "Scan interval must be at least 8 seconds."]> errors
          else errors).

(** Lines 79-92: the devices used in place of the remote enumeration. *)
Definition mock_devices : list Device :=
  [ {| deviceName := "Device1"; deviceFirmware := "1.0";
       deviceId := "123"; deviceAlarmType := "Paradox" |};
    {| deviceName := "Device2"; deviceFirmware := "1.1";
       deviceId := "124"; deviceAlarmType := "IDS" |} ].

(** [api = OlarmSetupApi(api_key); await api.get_olarm_devices()]. *)
Definition call_get_olarm_devices (api_key : value)
  : Flow (option (list Device)) :=
  _ ← emit (EvGetOlarmDevices api_key);
  lift (get_olarm_devices w api_key).

(** Lines 68-92.  The local [json] is bound by the remote call or by the
    mock branch; the [except] clause leaves it as it was, that is
    unassigned. The result is the binding of [json] and the errors. *)
Definition enumerate (api_key : value) (errors : gmap string string)
  : Flow (option (option (list Device)) * gmap string string) :=
  if negb (py_eq_str api_key "mock_api_key" || py_eq_str api_key "")
  then
    try_except
      (json ← call_get_olarm_devices api_key;
       mret (Some json, errors))
      (λ e, match e with
            | APIForbiddenError => Some (
                _ ← emit (EvLogWarning
                  "User entered invalid credentials or API access is not enabled!");
                mret (None, <[AUTHENTICATION_ERROR := "Invalid credentials!"]> errors))
            | _ => None
            end)
  else mret (Some (Some mock_devices), errors).

(** [self.hass.data[DOMAIN][key] = coordinator]. *)
Definition hass_data_setitem (key : string) (c : OlarmCoordinator)
  : Flow unit := λ st,
  match hass_data st !! DOMAIN with
  | Some d =>
      (Ret tt, {| hass_data := <[DOMAIN := <[key := c]> d]> (hass_data st);
                  trace := trace st |})
  | None => (Raise (KeyError DOMAIN), st)
  end.

(** Lines 127-133: the coordinator built for one device. *)
Definition new_coordinator (temp_entry : ConfigEntry) (device : Device)
  : OlarmCoordinator :=
  {| coordinator_entry := temp_entry;
     device_id := deviceId device;
     device_name := deviceName device;
     device_make := deviceAlarmType device |}.

(** Lines 122-137: the loop that creates, refreshes and registers one
    coordinator per device. *)
Fixpoint register_coordinators (temp_entry : ConfigEntry)
    (setup_devices : list string) (json : list Device) : Flow unit :=
  match json with
  | [] => mret tt
  | device :: rest =>
      _ ← (if bool_decide (deviceName device ∉ setup_devices)
           then mret tt
           else
             _ ← emit (EvSleep 2);
             let coordinator := new_coordinator temp_entry device in
             _ ← emit (EvUpdateData coordinator);
             _ ← lift (update_data w coordinator);
             hass_data_setitem (deviceId device) coordinator);
      register_coordinators temp_entry setup_devices rest
  end.

(** Lines 101-152: with no error recorded, derive the entry data from
    the devices, register the coordinators and create the entry. *)
Definition setup_entry (api_key scan_interval alarm_code : value)
    (json : option (list Device)) : Flow FlowResult :=
  (* iterating and indexing [json] needs a list *)
  json ← lift (match json with
               | Some l => Ret l
               | None => Raise TypeError
               end);
  let setup_devices := deviceName <$> json in
  first ← lift (match json with
                | d :: _ => Ret d
                | [] => Raise IndexError
                end);
  let firmware := deviceFirmware first in
  let temp_entry :=
    {| entry_domain := DOMAIN;
       entry_source := "User";
       entry_version := 1;
       entry_minor_version := 0;
       entry_title := "Olarm Sensors";
       entry_data := dict
         [ (CONF_API_KEY, api_key);
           (CONF_SCAN_INTERVAL, scan_interval);
           (CONF_DEVICE_FIRMWARE, VStr firmware);
           (CONF_ALARM_CODE, alarm_code);
           (CONF_OLARM_DEVICES, VList setup_devices);
           (OLARM_DEVICE_AMOUNT, VInt (Z.of_nat (length json)));
           (OLARM_DEVICE_NAMES, VList setup_devices) ] |} in
  _ ← register_coordinators temp_entry setup_devices json;
  mret (async_create_entry "Olarm Sensors" (dict
         [ (CONF_API_KEY, api_key);
           (CONF_SCAN_INTERVAL, scan_interval);
           (CONF_DEVICE_FIRMWARE, VStr firmware);
           (CONF_ALARM_CODE, alarm_code);
           (CONF_OLARM_DEVICES, VList setup_devices);
           (OLARM_DEVICES, VDevices json);
           (OLARM_DEVICE_AMOUNT, VInt (Z.of_nat (length json)));
           (OLARM_DEVICE_NAMES, VList setup_devices) ])).

(** [async_step_user(user_input)].  The source ends with one more
    [async_show_form] after the [if user_input is not None:] block; no
    run reaches it, since [None] has returned before. *)
Definition async_step_user (user_input : option (gmap string value))
  : Flow FlowResult :=
  match user_input with
  | None => _show_setup_form None
  | Some user_input =>
      errors ← lift (validate user_input);
      api_key ← lift (getitem user_input CONF_API_KEY);
      scan_interval ← lift (getitem user_input CONF_SCAN_INTERVAL);
      code ← lift (getitem user_input CONF_ALARM_CODE);
      alarm_code ←
        (if py_eq_str code "1234567890"
         then mret VNone
         else lift (getitem user_input CONF_ALARM_CODE));
      '(json, errors) ← enumerate api_key errors;
      (* line 94 reads the local [json] *)
      json ← load_local "json" json;
      let errors :=
        match json with
        | None => <[AUTHENTICATION_ERROR := "Invalid credentials!"]> errors
        | Some _ => errors
        end in
      if bool_decide (errors ≠ ∅)
      then _show_setup_form (Some errors)
      else setup_entry api_key scan_interval alarm_code json
  end.
End Flow.
End OlarmSensorsConfigFlow.

(** ** class OlarmOptionsFlow *)

Module OlarmOptionsFlow.
Section Flow.
Context `{Const} `{Builtins} (config_entry : ConfigEntry).

(** [_get_schema]: the options form, with its defaults read from the
    existing entry. *)
Definition _get_schema : outcome Schema :=
  stored ← getitem (entry_data config_entry) CONF_ALARM_CODE;
  alarm_code ←
    match stored with
    | VNone => mret (VStr "1234567890")
    | _ => getitem (entry_data config_entry) CONF_ALARM_CODE
    end;
  api_key ← getitem (entry_data config_entry) CONF_API_KEY;
  scan_interval ← getitem (entry_data config_entry) CONF_SCAN_INTERVAL;
  scan_interval ← py_int scan_interval;
  names ← getitem (entry_data config_entry) OLARM_DEVICE_NAMES;
  mret [ (Required CONF_API_KEY (Some api_key), cv_string);
         (Required CONF_SCAN_INTERVAL (Some (VInt scan_interval)),
          coerce_int_range 8);
         (Optional CONF_ALARM_CODE (Some alarm_code), cv_string);
         (Optional CONF_OLARM_DEVICES None, cv_multi_select names) ].

(** [async_step_init(user_input)]. *)
Definition async_step_init (user_input : option (gmap string value))
  : outcome FlowResult :=
  match user_input with
  | Some user_input =>
      code ← getitem user_input CONF_ALARM_CODE;
      alarm_code ←
        (if py_eq_str code "1234567890"
         then mret VNone
         else getitem user_input CONF_ALARM_CODE);
      let new := entry_data config_entry in
      let new := <[CONF_ALARM_CODE := alarm_code]> new in
      names ← getitem (entry_data config_entry) OLARM_DEVICE_NAMES;
      amount ← py_len names;
      let new := <[OLARM_DEVICE_AMOUNT := VInt amount]> new in
      scan_interval ← getitem user_input CONF_SCAN_INTERVAL;
      let new := <[CONF_SCAN_INTERVAL := scan_interval]> new in
      api_key ← getitem user_input CONF_API_KEY;
      let new := <[CONF_API_KEY := api_key]> new in
      devices ← getitem user_input CONF_OLARM_DEVICES;
      let new := <[CONF_OLARM_DEVICES := devices]> new in
      mret (async_create_entry "Olarm Sensors" new)
  | None =>
      schema ← _get_schema;
      mret (async_show_form "init" schema None)
  end.
End Flow.
End OlarmOptionsFlow.

(** ** Vocabulary of the properties *)

(** The keys of one dictionary must be different strings: the eight keys of
    the entry data among themselves, and the key of the authentication
    error from the two field keys it shares the error dictionary with. *)
Definition distinct_keys `{Const} : Prop :=
  NoDup [ CONF_API_KEY; CONF_SCAN_INTERVAL; CONF_DEVICE_FIRMWARE;
          CONF_ALARM_CODE; CONF_OLARM_DEVICES; OLARM_DEVICES;
          OLARM_DEVICE_AMOUNT; OLARM_DEVICE_NAMES ] ∧
  AUTHENTICATION_ERROR ∉ [ CONF_API_KEY; CONF_SCAN_INTERVAL ].

#[global] Instance distinct_keys_dec `{Const} : Decision distinct_keys.
Proof. unfold distinct_keys. apply _. Defined.

(** The keys an options submission rewrites. *)
Definition edited_keys `{Const} : list string :=
  [ CONF_ALARM_CODE; OLARM_DEVICE_AMOUNT; CONF_SCAN_INTERVAL; CONF_API_KEY;
    CONF_OLARM_DEVICES ].

(** The devices the setup step works with for a given API key (lines
    68-92): the built-in ones for the mock key, the result of the remote
    enumeration otherwise. *)
Definition discovered (w : World) (api_key : value) : option (list Device) :=
  if py_eq_str api_key "mock_api_key" || py_eq_str api_key ""
  then Some OlarmSensorsConfigFlow.mock_devices
  else match get_olarm_devices w api_key with
       | Ret json => json
       | Raise _ => None
       end.

(** A submission as the setup form delivers it: the API key and the alarm
    code are strings ([cv.string]) and the scan interval is an integer
    ([vol.Coerce(int)]). *)
Definition submitted `{Const} (user_input : gmap string value)
    (api_key : string) (scan_interval : Z) (alarm_code : string) : Prop :=
  user_input !! CONF_API_KEY = Some (VStr api_key) ∧
  user_input !! CONF_SCAN_INTERVAL = Some (VInt scan_interval) ∧
  user_input !! CONF_ALARM_CODE = Some (VStr alarm_code).

(** The state in which line 94 is reached when the enumeration returns:
    the log has the remote call unless the key selects the mock devices. *)
Definition after_enumeration (api_key : value) (st : FlowState) : FlowState :=
  if py_eq_str api_key "mock_api_key" || py_eq_str api_key ""
  then st else log st [EvGetOlarmDevices api_key].

(** The data of the entry a step creates, if it creates one. *)
Definition created_data (o : outcome FlowResult) : option (gmap string value) :=
  match o with
  | Ret (async_create_entry _ data) => Some data
  | _ => None
  end.

(** The errors of the form a step shows, if it shows one. *)
Definition shown_errors (o : outcome FlowResult)
  : option (option (gmap string string)) :=
  match o with
  | Ret (async_show_form _ _ errors) => Some errors
  | _ => None
  end.

(** The entry data that one of the two steps has stored for a submission
    whose alarm code is a string. *)
Definition stored_by_flow `{Const} `{Builtins} (data : gmap string value)
  : Prop :=
  (∃ w user_input st title st' code,
     user_input !! CONF_ALARM_CODE = Some (VStr code) ∧
     OlarmSensorsConfigFlow.async_step_user w (Some user_input) st =
       (Ret (async_create_entry title data), st')) ∨
  (∃ config_entry user_input title code,
     user_input !! CONF_ALARM_CODE = Some (VStr code) ∧
     OlarmOptionsFlow.async_step_init config_entry (Some user_input) =
       Ret (async_create_entry title data)).

(** The alarm code a step stores for a submitted one (lines 62-66 and
    222-226). *)
Definition stored_alarm_code (code : value) : value :=
  if py_eq_str code "1234567890" then VNone else code.

(** The default the options form displays for a stored alarm code (lines
    191-195). *)
Definition displayed_alarm_code (stored : value) : value :=
  match stored with
  | VNone => VStr "1234567890"
  | _ => stored
  end.

(** [data[OLARM_DEVICE_AMOUNT] == len(data[OLARM_DEVICE_NAMES])]. *)
Definition amount_matches_names `{Const} (data : gmap string value) : Prop :=
  ∃ names n,
    data !! OLARM_DEVICE_NAMES = Some names ∧ py_len names = Ret n ∧
    data !! OLARM_DEVICE_AMOUNT = Some (VInt n).

(** The domain dictionary of [hass.data] after registering a coordinator
    for each of the devices, in order. *)
Definition registered `{Const} (temp_entry : ConfigEntry) (json : list Device)
    (d : gmap string OlarmCoordinator) : gmap string OlarmCoordinator :=
  foldl (λ d device,
           <[deviceId device :=
               OlarmSensorsConfigFlow.new_coordinator temp_entry device]> d)
        d json.

(** The entry handed to every coordinator (lines 105-120), for the devices
    [first :: rest]. *)
Definition temp_entry_for `{Const} (api_key scan_interval alarm_code : value)
    (first : Device) (rest : list Device) : ConfigEntry :=
  {| entry_domain := DOMAIN;
     entry_source := "User";
     entry_version := 1;
     entry_minor_version := 0;
     entry_title := "Olarm Sensors";
     entry_data := dict
       [ (CONF_API_KEY, api_key);
         (CONF_SCAN_INTERVAL, scan_interval);
         (CONF_DEVICE_FIRMWARE, VStr (deviceFirmware first));
         (CONF_ALARM_CODE, alarm_code);
         (CONF_OLARM_DEVICES, VList (deviceName <$> first :: rest));
         (OLARM_DEVICE_AMOUNT, VInt (Z.of_nat (length (first :: rest))));
         (OLARM_DEVICE_NAMES, VList (deviceName <$> first :: rest)) ] |}.

(** The data of the created entry (lines 142-151), for the devices
    [first :: rest]. *)
Definition created_entry_data `{Const} (api_key scan_interval alarm_code : value)
    (first : Device) (rest : list Device) : gmap string value :=
  dict [ (CONF_API_KEY, api_key);
         (CONF_SCAN_INTERVAL, scan_interval);
         (CONF_DEVICE_FIRMWARE, VStr (deviceFirmware first));
         (CONF_ALARM_CODE, alarm_code);
         (CONF_OLARM_DEVICES, VList (deviceName <$> first :: rest));
         (OLARM_DEVICES, VDevices (first :: rest));
         (OLARM_DEVICE_AMOUNT, VInt (Z.of_nat (length (first :: rest))));
         (OLARM_DEVICE_NAMES, VList (deviceName <$> first :: rest)) ].

(** The calls one pass of the coordinator loop makes for a device (lines
    126 and 135), and those of a loop that completes. *)
Definition device_events (temp_entry : ConfigEntry) (device : Device)
  : list event :=
  [ EvSleep 2;
    EvUpdateData (OlarmSensorsConfigFlow.new_coordinator temp_entry device) ].

Definition loop_events (temp_entry : ConfigEntry) (json : list Device)
  : list event :=
  concat (device_events temp_entry <$> json).

(** The seconds spent in [asyncio.sleep] and the number of coordinator
    updates in a log. *)
Definition seconds_slept (t : list event) : Z :=
  foldr (λ e total, match e with EvSleep s => s + total | _ => total end) 0 t.

Definition updates (t : list event) : nat :=
  length (List.filter (λ e, match e with EvUpdateData _ => true | _ => false end) t).

(** The coordinator stored under [id] after registering the devices in
    order: the last device with that id wins, an id of no device keeps what
    was there. *)
Definition registered_under `{Const} (temp_entry : ConfigEntry)
    (json : list Device) (d : gmap string OlarmCoordinator) (id : string)
  : option OlarmCoordinator :=
  match last (filter (λ device, deviceId device = id) json) with
  | Some device =>
      Some (OlarmSensorsConfigFlow.new_coordinator temp_entry device)
  | None => d !! id
  end.

(** How a run may change the state: the log only grows, the dictionaries
    of other domains are kept, and the dictionary of this domain keeps its
    ids (it is never created or removed). *)
Definition only_registers `{Const} (st st' : FlowState) : Prop :=
  (∃ evs, trace st' = trace st ++ evs) ∧
  (∀ k, k ≠ DOMAIN → hass_data st' !! k = hass_data st !! k) ∧
  match hass_data st !! DOMAIN with
  | Some d => ∃ d', hass_data st' !! DOMAIN = Some d' ∧ dom d ⊆ dom d'
  | None => hass_data st' !! DOMAIN = None
  end.

(** An effectful computation all of whose runs are related by [R]. *)
Definition keeps (R : relation FlowState) {A} (m : Flow A) : Prop :=
  ∀ st o st', m st = (o, st') → R st st'.

(** The entry data the wizard can arrive at, together with the devices
    its setup run discovered: data created by the setup step, or produced
    by the options step from an entry holding such data. *)
Inductive wizard_data `{Const} `{Builtins}
    : list Device → gmap string value → Prop :=
  | wizard_setup w user_input st title data st' api_key json :
      user_input !! CONF_API_KEY = Some api_key →
      discovered w api_key = Some json →
      OlarmSensorsConfigFlow.async_step_user w (Some user_input) st =
        (Ret (async_create_entry title data), st') →
      wizard_data json data
  | wizard_options json config_entry user_input title new :
      wizard_data json (entry_data config_entry) →
      OlarmOptionsFlow.async_step_init config_entry (Some user_input) =
        Ret (async_create_entry title new) →
      wizard_data json new.

(** ** Sample data *)

(** One possible spelling of the constants. *)
Definition sample_const : Const := {|
  CONF_API_KEY := "api_key";
  CONF_SCAN_INTERVAL := "scan_interval";
  AUTHENTICATION_ERROR := "auth_error";
  CONF_ALARM_CODE := "olarm_arm_code";
  CONF_DEVICE_FIRMWARE := "olarm_device_firmware";
  CONF_OLARM_DEVICES := "selected_olarm_devices";
  DOMAIN := "olarm_sensors";
  OLARM_DEVICE_AMOUNT := "olarm_device_amount";
  OLARM_DEVICE_NAMES := "olarm_device_names";
  OLARM_DEVICES := "olarm_devices";
|}.

Definition sample_builtins : Builtins := {|
  int_of_str := λ _, Raise ValueError;
|}.

(** A submitted form. *)
Definition submission `{Const} (api_key : string) (scan_interval : Z)
    (alarm_code : string) : gmap string value :=
  dict [ (CONF_API_KEY, VStr api_key);
         (CONF_SCAN_INTERVAL, VInt scan_interval);
         (CONF_ALARM_CODE, VStr alarm_code) ].

(** A host whose [hass.data] already has the (empty) domain dictionary. *)
Definition fresh_state `{Const} : FlowState :=
  {| hass_data := {[ DOMAIN := ∅ ]}; trace := [] |}.

Definition world_returning (json : option (list Device)) : World :=
  {| get_olarm_devices := λ _, Ret json; update_data := λ _, Ret tt |}.

(** A submission with the mock key, on a service that is never asked. *)
Definition sample_mock_run : outcome FlowResult * FlowState :=
  OlarmSensorsConfigFlow.async_step_user (H := sample_const)
    (world_returning None)
    (Some (submission (H := sample_const) "mock_api_key" 30 "1234567890"))
    (fresh_state (H := sample_const)).

(** The entry the setup step creates for the mock key. *)
Definition sample_entry : ConfigEntry :=
  {| entry_domain := "olarm_sensors";
     entry_source := "user";
     entry_version := 1;
     entry_minor_version := 0;
     entry_title := "Olarm Sensors";
     entry_data := default ∅ (created_data sample_mock_run.1) |}.

(** An options submission. *)
Definition options_submission `{Const} (api_key : string) (scan_interval : Z)
    (alarm_code : value) (devices : list string) : gmap string value :=
  dict [ (CONF_API_KEY, VStr api_key);
         (CONF_SCAN_INTERVAL, VInt scan_interval);
         (CONF_ALARM_CODE, alarm_code);
         (CONF_OLARM_DEVICES, VList devices) ].

(** Editing that entry: a new key, a new interval, one device selected. *)
Definition sample_options_run : outcome FlowResult :=
  OlarmOptionsFlow.async_step_init (H := sample_const) (H0 := sample_builtins)
    sample_entry
    (Some (options_submission (H := sample_const)
             "new_key" 60 (VStr "1234567890") ["Device1"])).

(** The options form shown for that entry. *)
Definition sample_options_schema : Schema :=
  match OlarmOptionsFlow._get_schema (H := sample_const)
          (H0 := sample_builtins) sample_entry with
  | Ret schema => schema
  | Raise _ => []
  end.

(** A submission with a real key, on a service that knows one device. *)
Definition sample_devices : list Device :=
  [ {| deviceName := "Home"; deviceFirmware := "2.3";
       deviceId := "abc-1"; deviceAlarmType := "Paradox" |} ].

Definition sample_remote_run : outcome FlowResult * FlowState :=
  OlarmSensorsConfigFlow.async_step_user (H := sample_const)
    (world_returning (Some sample_devices))
    (Some (submission (H := sample_const) "real_key" 30 "4321"))
    (fresh_state (H := sample_const)).

(** The entry the setup step creates in the real-key run (alarm code
    "4321"). *)
Definition sample_remote_entry : ConfigEntry :=
  {| entry_domain := "olarm_sensors";
     entry_source := "user";
     entry_version := 1;
     entry_minor_version := 0;
     entry_title := "Olarm Sensors";
     entry_data := default ∅ (created_data sample_remote_run.1) |}.

(** A mock-key submission that also carries a device selection. *)
Definition sample_selecting_run : outcome FlowResult * FlowState :=
  OlarmSensorsConfigFlow.async_step_user (H := sample_const)
    (world_returning None)
    (Some (<["selected_olarm_devices" := VList ["Device1"]]>
             (submission (H := sample_const) "mock_api_key" 30 "1234567890")))
    (fresh_state (H := sample_const)).

Definition world_raising (e : exn) : World :=
  {| get_olarm_devices := λ _, Raise e; update_data := λ _, Ret tt |}.

(** A real key whose enumeration is refused by the service. *)
Definition sample_forbidden_run : outcome FlowResult * FlowState :=
  OlarmSensorsConfigFlow.async_step_user (H := sample_const)
    (world_raising APIForbiddenError)
    (Some (submission (H := sample_const) "real_key" 30 "1234567890"))
    (fresh_state (H := sample_const)).

(** A real key of an account without devices. *)
Definition sample_no_device_run : outcome FlowResult * FlowState :=
  OlarmSensorsConfigFlow.async_step_user (H := sample_const)
    (world_returning (Some []))
    (Some (submission (H := sample_const) "real_key" 30 "1234567890"))
    (fresh_state (H := sample_const)).

(** A scan interval below 8 with a real key, while the service cannot be
    reached. *)
Definition sample_unreachable_run : outcome FlowResult * FlowState :=
  OlarmSensorsConfigFlow.async_step_user (H := sample_const)
    (world_raising (ExternalError "cannot connect"))
    (Some (submission (H := sample_const) "real_key" 5 "1234567890"))
    (fresh_state (H := sample_const)).

(** A scan interval below 8 with a real key the service does not know. *)
Definition sample_short_interval_run : outcome FlowResult * FlowState :=
  OlarmSensorsConfigFlow.async_step_user (H := sample_const)
    (world_returning None)
    (Some (submission (H := sample_const) "real_key" 5 "1234567890"))
    (fresh_state (H := sample_const)).


(** A submission without the alarm code field. *)
Definition sample_incomplete_submission : gmap string value :=
  dict [ ("api_key", VStr "real_key"); ("scan_interval", VInt 30) ].

(** A submission whose scan interval arrives as text. *)
Definition sample_text_interval_submission : gmap string value :=
  <["scan_interval" := VStr "30"]>
    (submission (H := sample_const) "real_key" 30 "1234567890").

(** A service whose coordinator update fails for the device with one id. *)
Definition world_failing_update (id : string) (e : exn) : World :=
  {| get_olarm_devices := λ _, Ret None;
     update_data := λ c, if bool_decide (device_id c = id)
                         then Raise e else Ret tt |}.

(** A host whose [hass.data] has no dictionary for the domain yet. *)
Definition state_without_domain : FlowState :=
  {| hass_data := ∅; trace := [] |}.

(** The two mock devices, and the entry handed to the coordinators in the
    mock-key run. *)
Definition sample_device1 : Device :=
  {| deviceName := "Device1"; deviceFirmware := "1.0";
     deviceId := "123"; deviceAlarmType := "Paradox" |}.

Definition sample_device2 : Device :=
  {| deviceName := "Device2"; deviceFirmware := "1.1";
     deviceId := "124"; deviceAlarmType := "IDS" |}.

Definition sample_temp_entry : ConfigEntry :=
  temp_entry_for (H := sample_const) (VStr "mock_api_key") (VInt 30) VNone
    sample_device1 [ sample_device2 ].

(** An options submission without a device selection, and one with an
    empty key and a zero interval. *)
Definition sample_unselected_submission : gmap string value :=
  dict [ ("api_key", VStr "new_key"); ("scan_interval", VInt 60);
         ("olarm_arm_code", VStr "1234567890") ].

Definition sample_unchecked_submission : gmap string value :=
  options_submission (H := sample_const) "" 0 (VStr "4321") [].

(** The entry after the sample options submission. *)
Definition sample_edited_entry : ConfigEntry :=
  {| entry_domain := "olarm_sensors";
     entry_source := "user";
     entry_version := 1;
     entry_minor_version := 0;
     entry_title := "Olarm Sensors";
     entry_data := default ∅ (created_data sample_options_run) |}.

(** ** Reasoning about effectful code *)

Section Monad.
Context {A B : Type}.

Lemma Ret_inj (a a' : A) : Ret a = Ret a' → a = a'.
Proof. congruence. Qed.

Lemma outcome_bind_Ret (m : outcome A) (f : A → outcome B) (b : B) :
  (m ≫= f) = Ret b ↔ ∃ a, m = Ret a ∧ f a = Ret b.
Proof.
  destruct m as [a|e]; simpl; split.
  - eauto.
  - by intros (a' & [= ->] & ?).
  - done.
  - by intros (? & ? & _).
Qed.

Lemma Flow_bind_Ret (m : Flow A) (f : A → Flow B) st b st' :
  (m ≫= f) st = (Ret b, st') ↔
  ∃ a st1, m st = (Ret a, st1) ∧ f a st1 = (Ret b, st').
Proof.
  unfold mbind, Flow_bind. destruct (m st) as [[a|e] st1]; split.
  - eauto.
  - by intros (a' & st2 & [= -> ->] & ?).
  - done.
  - by intros (? & ? & ? & _).
Qed.

Lemma lift_Ret (o : outcome A) st a st' :
  lift o st = (Ret a, st') ↔ o = Ret a ∧ st' = st.
Proof. unfold lift. split; [by intros [= -> ->] | by intros [-> ->]]. Qed.

Lemma getitem_Ret {V} (d : gmap string V) k v :
  getitem d k = Ret v ↔ d !! k = Some v.
Proof. unfold getitem. destruct (d !! k); split; congruence. Qed.
End Monad.

(** ** The coordinator loop *)

Section Loop.
Context `{Const} (w : World).
Import OlarmSensorsConfigFlow.

Lemma enumeration_calls_app t1 t2 :
  enumeration_calls (t1 ++ t2) =
  (enumeration_calls t1 + enumeration_calls t2)%nat.
Proof. unfold enumeration_calls. by rewrite List.filter_app, length_app. Qed.

(** The loop makes no device enumeration, whatever its outcome. *)
Lemma register_coordinators_trace te names json st o st' :
  register_coordinators w te names json st = (o, st') →
  ∃ evs, trace st' = trace st ++ evs ∧ enumeration_calls evs = 0%nat.
Proof.
  revert st. induction json as [|device rest IH]; intros st; simpl.
  - intros [= <- <-]. exists []. by rewrite app_nil_r.
  - unfold mbind at 1, Flow_bind.
    case_bool_decide.
    + simpl. apply IH.
    + unfold mbind, Flow_bind, emit, lift, hass_data_setitem; simpl.
      destruct (update_data w _) as [[]|e]; simpl.
      * destruct (hass_data st !! DOMAIN) as [d|]; simpl.
        -- intros Hrest. apply IH in Hrest as (evs & -> & Hevs); simpl.
           eexists (_ :: _ :: evs). split.
           ++ by rewrite <-!app_assoc.
           ++ done.
        -- intros [= <- <-]; simpl. eexists [_; _].
           by rewrite <-app_assoc.
      * intros [= <- <-]; simpl. eexists [_; _].
        by rewrite <-app_assoc.
Qed.

(** When every device name is selected, a loop that completes has
    registered a coordinator for each device, in order. *)
Lemma register_coordinators_Ret te names json st st' d :
  (∀ device, device ∈ json → deviceName device ∈ names) →
  hass_data st !! DOMAIN = Some d →
  register_coordinators w te names json st = (Ret tt, st') →
  hass_data st' = <[DOMAIN := registered te json d]> (hass_data st).
Proof.
  revert st d. induction json as [|device rest IH]; intros st d Hin Hd; simpl.
  - intros [= <-]. by rewrite insert_id.
  - unfold mbind at 1, Flow_bind.
    rewrite bool_decide_false by (intros Hn; apply Hn, Hin; left).
    unfold mbind, Flow_bind, emit, lift, hass_data_setitem; simpl.
    destruct (update_data w _) as [[]|e]; simpl; [|done].
    rewrite Hd. intros Hrest.
    eapply (IH _ (<[deviceId device := new_coordinator te device]> d))
      in Hrest; simpl in *.
    + rewrite Hrest. by rewrite insert_insert_eq.
    + intros ??. apply Hin. by right.
    + by rewrite lookup_insert_eq.
Qed.

(** A loop over at least one selected device needs the domain
    dictionary. *)
Lemma register_coordinators_domain te names device rest st st' :
  deviceName device ∈ names →
  register_coordinators w te names (device :: rest) st = (Ret tt, st') →
  is_Some (hass_data st !! DOMAIN).
Proof.
  intros Hin. simpl. unfold mbind at 1, Flow_bind.
  rewrite bool_decide_false by (by intros Hn).
  unfold mbind, Flow_bind, emit, lift, hass_data_setitem; simpl.
  destruct (update_data w _) as [[]|e]; simpl; [|done].
  destruct (hass_data st !! DOMAIN); [eauto|done].
Qed.
End Loop.

(** ** The setup step, case by case *)

Section Setup.
Context `{Const} (w : World).
Import OlarmSensorsConfigFlow.

Lemma log_log st evs1 evs2 : log (log st evs1) evs2 = log st (evs1 ++ evs2).
Proof. unfold log; simpl. by rewrite app_assoc. Qed.

(** The remote call and its [except] clause. *)
Lemma enumerate_eq api_key errors st :
  enumerate w api_key errors st =
  if py_eq_str api_key "mock_api_key" || py_eq_str api_key ""
  then (Ret (Some (Some mock_devices), errors), st)
  else match get_olarm_devices w api_key with
       | Ret json =>
           (Ret (Some json, errors), log st [EvGetOlarmDevices api_key])
       | Raise APIForbiddenError =>
           (Ret (None, <[AUTHENTICATION_ERROR := "Invalid credentials!"]> errors),
            log st [EvGetOlarmDevices api_key;
                    EvLogWarning
                      "User entered invalid credentials or API access is not enabled!"])
       | Raise e => (Raise e, log st [EvGetOlarmDevices api_key])
       end.
Proof.
  unfold enumerate.
  destruct (py_eq_str api_key "mock_api_key" || py_eq_str api_key ""); [done|].
  unfold try_except, call_get_olarm_devices, mbind, Flow_bind, emit, lift;
    simpl.
  destruct (get_olarm_devices w api_key) as [json|[]]; simpl;
    by rewrite ?log_log.
Qed.

(** The entry data the setup step persists for a list of devices. *)
Lemma setup_entry_Ret api_key scan_interval alarm_code json st r st' :
  setup_entry w api_key scan_interval alarm_code json st = (Ret r, st') →
  ∃ first rest temp_entry,
    json = Some (first :: rest) ∧
    register_coordinators w temp_entry (deviceName <$> first :: rest)
      (first :: rest) st = (Ret tt, st') ∧
    r = async_create_entry "Olarm Sensors" (dict
          [ (CONF_API_KEY, api_key);
            (CONF_SCAN_INTERVAL, scan_interval);
            (CONF_DEVICE_FIRMWARE, VStr (deviceFirmware first));
            (CONF_ALARM_CODE, alarm_code);
            (CONF_OLARM_DEVICES, VList (deviceName <$> first :: rest));
            (OLARM_DEVICES, VDevices (first :: rest));
            (OLARM_DEVICE_AMOUNT, VInt (Z.of_nat (length (first :: rest))));
            (OLARM_DEVICE_NAMES, VList (deviceName <$> first :: rest)) ]).
Proof.
  unfold setup_entry. intros Hrun.
  apply Flow_bind_Ret in Hrun as (l & st1 & Hl & Hrun).
  apply lift_Ret in Hl as [Hl ->].
  apply Flow_bind_Ret in Hrun as (first & st1 & Hfirst & Hrun).
  apply lift_Ret in Hfirst as [Hfirst ->].
  apply Flow_bind_Ret in Hrun as ([] & st1 & Hloop & Hrun).
  destruct json as [json|]; [|done]. injection Hl as ->.
  destruct l as [|d rest]; [done|]. injection Hfirst as ->.
  injection Hrun as <- <-.
  by eexists first, rest, _.
Qed.

(** An empty device list stops at the read of [json[0]]. *)
Lemma setup_entry_empty api_key scan_interval alarm_code st :
  setup_entry w api_key scan_interval alarm_code (Some []) st =
  (Raise IndexError, st).
Proof. done. Qed.

(** From line 101 on, no device enumeration is made. *)
Lemma setup_entry_trace api_key scan_interval alarm_code json st o st' :
  setup_entry w api_key scan_interval alarm_code json st = (o, st') →
  ∃ evs, trace st' = trace st ++ evs ∧ enumeration_calls evs = 0%nat.
Proof.
  unfold setup_entry. intros Hrun.
  destruct json as [[|first rest]|];
    cbv beta iota delta [mbind Flow_bind lift mret Flow_ret] in Hrun.
  - injection Hrun as <- <-. exists []. by rewrite app_nil_r.
  - destruct (register_coordinators _ _ _ _ _) as [[[]|e] st1] eqn:Hloop;
      injection Hrun as <- <-; by eapply register_coordinators_trace.
  - injection Hrun as <- <-. exists []. by rewrite app_nil_r.
Qed.

(** From line 101 on, the step never shows a form. *)
Lemma setup_entry_not_form api_key scan_interval alarm_code json st st'
    step schema errors :
  setup_entry w api_key scan_interval alarm_code json st ≠
  (Ret (async_show_form step schema errors), st').
Proof.
  intros Hrun. by apply setup_entry_Ret in Hrun as (?&?&?&_&_&?).
Qed.

Section Run.
Context (user_input : gmap string value) (api_key scan_interval code : value)
  (errors : gmap string string).
Hypothesis Hvalidate : validate user_input = Ret errors.
Hypothesis Hkey : user_input !! CONF_API_KEY = Some api_key.
Hypothesis Hscan : user_input !! CONF_SCAN_INTERVAL = Some scan_interval.
Hypothesis Hcode : user_input !! CONF_ALARM_CODE = Some code.

(** What a submission does once its three fields have been read. *)
Lemma async_step_user_eq st :
  async_step_user w (Some user_input) st =
  let form errors :=
    Ret (async_show_form "user" _get_schema (Some errors)) in
  let continue json st :=
    if bool_decide (errors ≠ ∅) then (form errors, st)
    else setup_entry w api_key scan_interval (stored_alarm_code code)
           (Some json) st in
  if py_eq_str api_key "mock_api_key" || py_eq_str api_key ""
  then continue mock_devices st
  else match get_olarm_devices w api_key with
       | Ret (Some json) =>
           continue json (log st [EvGetOlarmDevices api_key])
       | Ret None =>
           (form (<[AUTHENTICATION_ERROR := "Invalid credentials!"]> errors),
            log st [EvGetOlarmDevices api_key])
       | Raise APIForbiddenError =>
           (Raise (UnboundLocalError "json"),
            log st [EvGetOlarmDevices api_key;
                    EvLogWarning
                      "User entered invalid credentials or API access is not enabled!"])
       | Raise e => (Raise e, log st [EvGetOlarmDevices api_key])
       end.
Proof.
  unfold async_step_user, stored_alarm_code.
  unfold mbind at 1 2 3 4 5 6, Flow_bind, lift.
  rewrite Hvalidate. unfold getitem. rewrite Hkey, Hscan, Hcode.
  destruct (py_eq_str code "1234567890");
    cbv beta iota delta [mret Flow_ret];
    rewrite enumerate_eq;
    (destruct (py_eq_str api_key "mock_api_key" || py_eq_str api_key "");
      [ unfold mbind, Flow_bind; simpl; by case_bool_decide | ]);
    (destruct (get_olarm_devices w api_key) as [[json|]|[]];
      unfold mbind, Flow_bind; simpl; try done;
      [ by case_bool_decide
      | rewrite bool_decide_true; [done | apply insert_non_empty] ]).
Qed.
End Run.

(** A submission whose fields cannot be read or compared raises before
    any effect. *)
Lemma async_step_user_raise_early user_input st e :
  validate user_input = Raise e →
  async_step_user w (Some user_input) st = (Raise e, st).
Proof.
  intros Hv. unfold async_step_user, mbind at 1, Flow_bind, lift.
  by rewrite Hv.
Qed.
End Setup.

(** ** The checks on the submitted fields *)

Section Validate.
Context `{Const}.
Import OlarmSensorsConfigFlow.

(** The checks succeed only on a key that is not falsy. *)
Lemma validate_empty user_input api_key :
  validate user_input = Ret ∅ →
  user_input !! CONF_API_KEY = Some api_key →
  py_not api_key = false.
Proof.
  unfold validate, getitem. intros Hv Hk. rewrite Hk in Hv; simpl in Hv.
  destruct (py_not api_key); [|done].
  destruct (user_input !! CONF_SCAN_INTERVAL) as [scan|]; [|done].
  simpl in Hv. destruct (py_not scan); simpl in Hv.
  - apply Ret_inj in Hv. by apply insert_non_empty in Hv.
  - destruct (py_lt_int scan 8) as [[]|]; simpl in Hv; [| |done];
      apply Ret_inj in Hv; by apply insert_non_empty in Hv.
Qed.

(** The errors recorded for a string key and an integer interval. *)
Lemma validate_submitted user_input api_key scan_interval :
  user_input !! CONF_API_KEY = Some (VStr api_key) →
  user_input !! CONF_SCAN_INTERVAL = Some (VInt scan_interval) →
  validate user_input = Ret (
    let errors : gmap string string :=
      if bool_decide (api_key = "")
      then {[ CONF_API_KEY := "API key is required." ]} else ∅ in
    if bool_decide (scan_interval = 0)
    then <[CONF_SCAN_INTERVAL := "Scan interval is required."]> errors
    else if bool_decide (scan_interval < 8)
    then <[CONF_SCAN_INTERVAL :=
             "Scan interval must be at least 8 seconds."]> errors
    else errors).
Proof.
  intros Hk Hs. unfold validate, getitem. rewrite Hk, Hs; simpl.
  by repeat case_bool_decide.
Qed.

(** An error is recorded exactly for an empty key, a zero interval or an
    interval below 8. *)
Lemma validate_submitted_errors user_input api_key scan_interval errors :
  user_input !! CONF_API_KEY = Some (VStr api_key) →
  user_input !! CONF_SCAN_INTERVAL = Some (VInt scan_interval) →
  validate user_input = Ret errors →
  errors ≠ ∅ ↔ api_key = "" ∨ scan_interval = 0 ∨ scan_interval < 8.
Proof.
  intros Hk Hs Hv.
  rewrite (validate_submitted _ _ _ Hk Hs) in Hv. apply Ret_inj in Hv as <-.
  cbv zeta. repeat case_bool_decide; split; intros Hx;
    try (by apply insert_non_empty); try tauto; try lia.
Qed.
End Validate.

(** ** Dictionary displays *)

Section Dict.
Context {V : Type}.
Implicit Types items : list (string * V).

Lemma dict_snoc items k v : dict (items ++ [(k, v)]) = <[k := v]> (dict items).
Proof. unfold dict. by rewrite foldl_app. Qed.

Lemma dict_list_to_map items : dict items = list_to_map (reverse items).
Proof.
  induction items as [|[k v] items IH] using rev_ind; [done|].
  by rewrite dict_snoc, reverse_snoc, IH.
Qed.

(** With pairwise different keys a display holds exactly its pairs. *)
Lemma dict_lookup_Some items k v :
  NoDup items.*1 → dict items !! k = Some v ↔ (k, v) ∈ items.
Proof.
  intros Hnd. rewrite dict_list_to_map, <-elem_of_list_to_map.
  - by rewrite elem_of_reverse.
  - by rewrite fmap_reverse, reverse_Permutation.
Qed.

Lemma dict_dom items : dom (dict items) = list_to_set items.*1.
Proof.
  rewrite dict_list_to_map, dom_list_to_map_L, fmap_reverse.
  apply set_eq. intros k. by rewrite !elem_of_list_to_set, elem_of_reverse.
Qed.
End Dict.

(** ** What a created entry tells about the run *)

Section Created.
Context `{Const} (w : World).
Import OlarmSensorsConfigFlow.

(** A submission that returns has had its fields read and checked. *)
Lemma async_step_user_reads user_input st r st' :
  async_step_user w (Some user_input) st = (Ret r, st') →
  ∃ errors api_key scan_interval code,
    validate user_input = Ret errors ∧
    user_input !! CONF_API_KEY = Some api_key ∧
    user_input !! CONF_SCAN_INTERVAL = Some scan_interval ∧
    user_input !! CONF_ALARM_CODE = Some code.
Proof.
  unfold async_step_user. intros Hrun.
  apply Flow_bind_Ret in Hrun as (errors & st1 & He & Hrun).
  apply lift_Ret in He as [He ->].
  apply Flow_bind_Ret in Hrun as (api_key & st1 & Hk & Hrun).
  apply lift_Ret in Hk as [Hk%getitem_Ret ->].
  apply Flow_bind_Ret in Hrun as (scan & st1 & Hs & Hrun).
  apply lift_Ret in Hs as [Hs%getitem_Ret ->].
  apply Flow_bind_Ret in Hrun as (code & st1 & Hc & Hrun).
  apply lift_Ret in Hc as [Hc%getitem_Ret ->].
  by exists errors, api_key, scan, code.
Qed.

Lemma async_step_user_created user_input st title data st' :
  async_step_user w (Some user_input) st =
    (Ret (async_create_entry title data), st') →
  ∃ api_key scan_interval code first rest temp_entry,
    validate user_input = Ret ∅ ∧
    user_input !! CONF_API_KEY = Some api_key ∧
    user_input !! CONF_SCAN_INTERVAL = Some scan_interval ∧
    user_input !! CONF_ALARM_CODE = Some code ∧
    discovered w api_key = Some (first :: rest) ∧
    register_coordinators w temp_entry (deviceName <$> first :: rest)
      (first :: rest) (after_enumeration api_key st) = (Ret tt, st') ∧
    title = "Olarm Sensors" ∧
    data = dict
      [ (CONF_API_KEY, api_key);
        (CONF_SCAN_INTERVAL, scan_interval);
        (CONF_DEVICE_FIRMWARE, VStr (deviceFirmware first));
        (CONF_ALARM_CODE, stored_alarm_code code);
        (CONF_OLARM_DEVICES, VList (deviceName <$> first :: rest));
        (OLARM_DEVICES, VDevices (first :: rest));
        (OLARM_DEVICE_AMOUNT, VInt (Z.of_nat (length (first :: rest))));
        (OLARM_DEVICE_NAMES, VList (deviceName <$> first :: rest)) ].
Proof.
  intros Hrun.
  destruct (async_step_user_reads _ _ _ _ Hrun)
    as (errors & api_key & scan & code & He & Hk & Hs & Hc).
  rewrite (async_step_user_eq w _ _ _ _ _ He Hk Hs Hc) in Hrun.
  exists api_key, scan, code. unfold discovered, after_enumeration.
  cbv zeta in Hrun.
  destruct (py_eq_str api_key "mock_api_key" || py_eq_str api_key "").
  - case_bool_decide as Herr; [done|].
    subst errors.
    apply setup_entry_Ret in Hrun
      as (first & rest & te & Hjson & Hloop & [= -> ->]).
    by exists first, rest, te.
  - destruct (get_olarm_devices w api_key) as [[json|]|e].
    + case_bool_decide as Herr; [done|].
      subst errors.
      apply setup_entry_Ret in Hrun
        as (first & rest & te & [= ->] & Hloop & [= -> ->]).
      by exists first, rest, te.
    + done.
    + by destruct e.
Qed.
End Created.

(** ** The options step *)

(** Lookups below a stack of insertions, for keys known to differ. *)
(** Membership in a list that is written out. *)
Ltac in_list :=
  repeat first [ apply list_elem_of_here | apply list_elem_of_further ].

Ltac split_keys :=
  repeat match goal with
         | Hk : _ ∉ _ :: _ |- _ => apply not_elem_of_cons in Hk as [? Hk]
         | Hk : _ ∉ [] |- _ => clear Hk
         end.

Ltac lookup_keys :=
  split_keys;
  repeat first
    [ rewrite lookup_insert_eq
    | rewrite lookup_insert_ne by congruence ].

Section Options.
Context `{Const} `{Builtins}.
Import OlarmOptionsFlow.

(** The pairwise differences of the entry keys, as separate facts. *)
Lemma distinct_keys_entry :
  distinct_keys →
  (CONF_API_KEY ∉ [ CONF_SCAN_INTERVAL; CONF_DEVICE_FIRMWARE; CONF_ALARM_CODE;
                    CONF_OLARM_DEVICES; OLARM_DEVICES; OLARM_DEVICE_AMOUNT;
                    OLARM_DEVICE_NAMES ]) ∧
  (CONF_SCAN_INTERVAL ∉ [ CONF_DEVICE_FIRMWARE; CONF_ALARM_CODE;
                          CONF_OLARM_DEVICES; OLARM_DEVICES;
                          OLARM_DEVICE_AMOUNT; OLARM_DEVICE_NAMES ]) ∧
  (CONF_DEVICE_FIRMWARE ∉ [ CONF_ALARM_CODE; CONF_OLARM_DEVICES;
                            OLARM_DEVICES; OLARM_DEVICE_AMOUNT;
                            OLARM_DEVICE_NAMES ]) ∧
  (CONF_ALARM_CODE ∉ [ CONF_OLARM_DEVICES; OLARM_DEVICES;
                       OLARM_DEVICE_AMOUNT; OLARM_DEVICE_NAMES ]) ∧
  (CONF_OLARM_DEVICES ∉ [ OLARM_DEVICES; OLARM_DEVICE_AMOUNT;
                          OLARM_DEVICE_NAMES ]) ∧
  (OLARM_DEVICES ∉ [ OLARM_DEVICE_AMOUNT; OLARM_DEVICE_NAMES ]) ∧
  (OLARM_DEVICE_AMOUNT ∉ [ OLARM_DEVICE_NAMES ]).
Proof.
  intros [Hnd _]. repeat (apply NoDup_cons in Hnd as [? Hnd]). done.
Qed.

(** The entry data an options submission produces. *)
Lemma async_step_init_created config_entry user_input title new :
  async_step_init config_entry (Some user_input) =
    Ret (async_create_entry title new) ↔
  ∃ code names amount scan_interval api_key devices,
    user_input !! CONF_ALARM_CODE = Some code ∧
    entry_data config_entry !! OLARM_DEVICE_NAMES = Some names ∧
    py_len names = Ret amount ∧
    user_input !! CONF_SCAN_INTERVAL = Some scan_interval ∧
    user_input !! CONF_API_KEY = Some api_key ∧
    user_input !! CONF_OLARM_DEVICES = Some devices ∧
    title = "Olarm Sensors" ∧
    new = <[CONF_OLARM_DEVICES := devices]> (
          <[CONF_API_KEY := api_key]> (
          <[CONF_SCAN_INTERVAL := scan_interval]> (
          <[OLARM_DEVICE_AMOUNT := VInt amount]> (
          <[CONF_ALARM_CODE := stored_alarm_code code]> (
            entry_data config_entry))))).
Proof.
  unfold async_step_init, stored_alarm_code. split.
  - intros Hrun.
    apply outcome_bind_Ret in Hrun as (code & Hc%getitem_Ret & Hrun).
    apply outcome_bind_Ret in Hrun as (alarm & Ha & Hrun).
    apply outcome_bind_Ret in Hrun as (names & Hn%getitem_Ret & Hrun).
    apply outcome_bind_Ret in Hrun as (amount & Hlen & Hrun).
    apply outcome_bind_Ret in Hrun as (scan & Hs%getitem_Ret & Hrun).
    apply outcome_bind_Ret in Hrun as (api_key & Hk%getitem_Ret & Hrun).
    apply outcome_bind_Ret in Hrun as (devices & Hd%getitem_Ret & Hrun).
    injection Hrun as <- <-.
    exists code, names, amount, scan, api_key, devices.
    repeat (split; [done|]).
    destruct (py_eq_str code "1234567890").
    + by injection Ha as <-.
    + apply getitem_Ret in Ha. by simplify_eq.
  - intros (code & names & amount & scan & api_key & devices &
            Hc & Hn & Hlen & Hs & Hk & Hd & -> & ->).
    unfold getitem. rewrite Hc; simpl.
    destruct (py_eq_str code "1234567890"); simpl;
      rewrite ?Hc, Hn; simpl; rewrite Hlen; simpl;
      by rewrite Hs, Hk, Hd.
Qed.

(** The default the options form displays for the alarm code. *)
Lemma _get_schema_alarm_code config_entry schema :
  distinct_keys →
  _get_schema config_entry = Ret schema →
  ∃ stored,
    entry_data config_entry !! CONF_ALARM_CODE = Some stored ∧
    schema_default schema CONF_ALARM_CODE =
      Some (displayed_alarm_code stored).
Proof.
  intros Hkeys%distinct_keys_entry Hschema. unfold _get_schema in Hschema.
  apply outcome_bind_Ret in Hschema as (stored & Hst & Hschema).
  apply outcome_bind_Ret in Hschema as (alarm & Ha & Hschema).
  apply outcome_bind_Ret in Hschema as (api_key & _ & Hschema).
  apply outcome_bind_Ret in Hschema as (scan & _ & Hschema).
  apply outcome_bind_Ret in Hschema as (z & _ & Hschema).
  apply outcome_bind_Ret in Hschema as (names & _ & Hschema).
  injection Hschema as <-. exists stored.
  split; [by apply getitem_Ret|]. simpl.
  assert (CONF_API_KEY ≠ CONF_ALARM_CODE ∧
          CONF_SCAN_INTERVAL ≠ CONF_ALARM_CODE) as [??]
    by (destruct Hkeys as (?&?&_); set_solver).
  rewrite !bool_decide_false by done.
  rewrite bool_decide_true by done. f_equal.
  destruct stored; simpl; try (rewrite Hst in Ha; by injection Ha as ->).
  by injection Ha as <-.
Qed.
End Options.

(** ** Facts about the stored record *)

Section Stored.
Context `{Const} `{Builtins}.
Import OlarmSensorsConfigFlow OlarmOptionsFlow.

Lemma async_step_user_amount w user_input st title data st' :
  distinct_keys →
  async_step_user w (Some user_input) st =
    (Ret (async_create_entry title data), st') →
  amount_matches_names data.
Proof.
  intros [Hnd _] Hrun.
  apply async_step_user_created in Hrun
    as (api_key & scan & code & first & rest & te &
        _ & _ & _ & _ & _ & _ & _ & ->).
  exists (VList (deviceName <$> first :: rest)),
         (Z.of_nat (length (first :: rest))).
  split; [|split].
  - apply dict_lookup_Some; [exact Hnd | in_list].
  - simpl. by rewrite length_fmap.
  - apply dict_lookup_Some; [exact Hnd | in_list].
Qed.

Lemma async_step_init_amount config_entry user_input title new :
  distinct_keys →
  async_step_init config_entry (Some user_input) =
    Ret (async_create_entry title new) →
  ∃ names n,
    entry_data config_entry !! OLARM_DEVICE_NAMES = Some names ∧
    py_len names = Ret n ∧
    new !! OLARM_DEVICE_NAMES = Some names ∧
    new !! OLARM_DEVICE_AMOUNT = Some (VInt n).
Proof.
  intros (Hk1 & Hk2 & Hk3 & Hk4 & Hk5 & Hk6 & Hk7)%distinct_keys_entry Hrun.
  apply async_step_init_created in Hrun
    as (code & names & amount & scan & api_key & devices &
        Hc & Hn & Hlen & Hs & Hk & Hd & -> & ->).
  exists names, amount. repeat split; try done; by lookup_keys.
Qed.

Lemma async_step_user_alarm_code w user_input st title data st' :
  distinct_keys →
  async_step_user w (Some user_input) st =
    (Ret (async_create_entry title data), st') →
  ∃ code,
    user_input !! CONF_ALARM_CODE = Some code ∧
    data !! CONF_ALARM_CODE = Some (stored_alarm_code code).
Proof.
  intros [Hnd _] Hrun.
  apply async_step_user_created in Hrun
    as (api_key & scan & code & first & rest & te &
        _ & _ & _ & Hc & _ & _ & _ & ->).
  exists code. split; [done|].
  apply dict_lookup_Some; [exact Hnd | in_list].
Qed.

Lemma async_step_init_alarm_code config_entry user_input title new :
  distinct_keys →
  async_step_init config_entry (Some user_input) =
    Ret (async_create_entry title new) →
  ∃ code,
    user_input !! CONF_ALARM_CODE = Some code ∧
    new !! CONF_ALARM_CODE = Some (stored_alarm_code code).
Proof.
  intros (Hk1 & Hk2 & Hk3 & Hk4 & Hk5 & Hk6 & Hk7)%distinct_keys_entry Hrun.
  apply async_step_init_created in Hrun
    as (code & names & amount & scan & api_key & devices &
        Hc & Hn & Hlen & Hs & Hk & Hd & -> & ->).
  exists code. split; [done|]. by lookup_keys.
Qed.

(** What both steps guarantee of the data they store. *)
Lemma stored_by_flow_inv data :
  distinct_keys →
  stored_by_flow data →
  (∃ code, data !! CONF_ALARM_CODE = Some (stored_alarm_code (VStr code))) ∧
  (∃ names n, data !! OLARM_DEVICE_NAMES = Some names ∧ py_len names = Ret n).
Proof.
  intros Hkeys
    [(w & ui & st & title & st' & code & Hc & Hrun) |
     (e & ui & title & code & Hc & Hrun)].
  - split.
    + destruct (async_step_user_alarm_code _ _ _ _ _ _ Hkeys Hrun)
        as (code' & Hc' & Hd).
      exists code. by simplify_eq.
    + destruct (async_step_user_amount _ _ _ _ _ _ Hkeys Hrun)
        as (names & n & ? & ? & _). eauto.
  - split.
    + destruct (async_step_init_alarm_code _ _ _ _ Hkeys Hrun)
        as (code' & Hc' & Hd).
      exists code. by simplify_eq.
    + destruct (async_step_init_amount _ _ _ _ Hkeys Hrun)
        as (names & n & _ & ? & ? & _). eauto.
Qed.

(** Storing what the options form displays for a stored code gives the
    stored code back. *)
Lemma stored_alarm_code_displayed code :
  stored_alarm_code (displayed_alarm_code (stored_alarm_code (VStr code))) =
  stored_alarm_code (VStr code).
Proof.
  unfold stored_alarm_code, displayed_alarm_code; simpl.
  case_bool_decide as Hcode; simpl; [done|].
  by rewrite bool_decide_false.
Qed.

(** Both steps store an API key. *)
Lemma stored_by_flow_api_key data :
  distinct_keys →
  stored_by_flow data →
  is_Some (data !! CONF_API_KEY).
Proof.
  intros Hkeys
    [(w & ui & st & title & st' & code & Hc & Hrun) |
     (e & ui & title & code & Hc & Hrun)].
  - destruct Hkeys as [Hnd _].
    apply async_step_user_created in Hrun
      as (api_key & scan & code' & first & rest & te &
          _ & _ & _ & _ & _ & _ & _ & ->).
    exists api_key. apply dict_lookup_Some; [exact Hnd | in_list].
  - apply distinct_keys_entry in Hkeys
      as (Hk1 & Hk2 & Hk3 & Hk4 & Hk5 & Hk6 & Hk7).
    apply async_step_init_created in Hrun
      as (code' & names & amount & scan & api_key & devices &
          _ & _ & _ & _ & _ & _ & _ & ->).
    exists api_key. by lookup_keys.
Qed.

(** The options form is built whenever the entry has the four keys it
    reads and its scan interval converts to an integer. *)
Lemma _get_schema_total config_entry stored api_key scan_interval z names :
  entry_data config_entry !! CONF_ALARM_CODE = Some stored →
  entry_data config_entry !! CONF_API_KEY = Some api_key →
  entry_data config_entry !! CONF_SCAN_INTERVAL = Some scan_interval →
  py_int scan_interval = Ret z →
  entry_data config_entry !! OLARM_DEVICE_NAMES = Some names →
  ∃ schema, OlarmOptionsFlow._get_schema config_entry = Ret schema.
Proof.
  intros Hc Hk Hs Hz Hn. unfold OlarmOptionsFlow._get_schema, getitem.
  rewrite Hc; simpl.
  destruct stored; simpl; rewrite ?Hc; simpl; rewrite Hk, Hs; simpl;
    rewrite Hz; simpl; rewrite Hn; simpl; by eexists.
Qed.

(** Submitting the displayed default stores the stored code again. *)
Lemma alarm_code_resubmitted config_entry schema user_input :
  distinct_keys →
  stored_by_flow (entry_data config_entry) →
  OlarmOptionsFlow._get_schema config_entry = Ret schema →
  user_input !! CONF_ALARM_CODE = schema_default schema CONF_ALARM_CODE →
  is_Some (user_input !! CONF_API_KEY) →
  is_Some (user_input !! CONF_SCAN_INTERVAL) →
  is_Some (user_input !! CONF_OLARM_DEVICES) →
  ∃ new,
    async_step_init config_entry (Some user_input) =
      Ret (async_create_entry "Olarm Sensors" new) ∧
    new !! CONF_ALARM_CODE = entry_data config_entry !! CONF_ALARM_CODE.
Proof.
  intros Hkeys Hflow Hschema Hc [api_key Hk] [scan Hs] [devices Hd].
  destruct (stored_by_flow_inv _ Hkeys Hflow)
    as [(code & Hcode) (names & n & Hn & Hlen)].
  destruct (_get_schema_alarm_code _ _ Hkeys Hschema)
    as (stored & Hst & Hdefault).
  rewrite Hcode in Hst. injection Hst as <-.
  rewrite Hdefault in Hc.
  set (shown := displayed_alarm_code (stored_alarm_code (VStr code))) in Hc.
  exists (<[CONF_OLARM_DEVICES := devices]> (
          <[CONF_API_KEY := api_key]> (
          <[CONF_SCAN_INTERVAL := scan]> (
          <[OLARM_DEVICE_AMOUNT := VInt n]> (
          <[CONF_ALARM_CODE := stored_alarm_code shown]> (
            entry_data config_entry)))))).
  split.
  - apply async_step_init_created.
    exists shown, names, n, scan, api_key, devices. by repeat split.
  - apply distinct_keys_entry in Hkeys
      as (Hk1 & Hk2 & Hk3 & Hk4 & Hk5 & Hk6 & Hk7).
    lookup_keys. rewrite Hcode. f_equal.
    apply stored_alarm_code_displayed.
Qed.
End Stored.

(** ** The persisted configuration record *)

Ltac sample_keys := apply (bool_decide_unpack _); vm_compute; exact I.

Section Record.
Context `{Const} `{Builtins} (w : World).
Import OlarmSensorsConfigFlow OlarmOptionsFlow.

(** C5: a setup submission that succeeds persists exactly the collected
    configuration: the submitted API key and scan interval, the alarm code
    ([None] for the sentinel, the entered value otherwise), the firmware of
    the first discovered device, the names of the discovered devices, the
    devices themselves and their number; the entry has no other key. *)
Theorem C5_setup_persists_collected_configuration
    user_input st title data st' :
  distinct_keys →
  async_step_user w (Some user_input) st =
    (Ret (async_create_entry title data), st') →
  ∃ api_key scan_interval code first rest,
    user_input !! CONF_API_KEY = Some api_key ∧
    user_input !! CONF_SCAN_INTERVAL = Some scan_interval ∧
    user_input !! CONF_ALARM_CODE = Some code ∧
    discovered w api_key = Some (first :: rest) ∧
    data !! CONF_API_KEY = Some api_key ∧
    data !! CONF_SCAN_INTERVAL = Some scan_interval ∧
    data !! CONF_ALARM_CODE =
      Some (if py_eq_str code "1234567890" then VNone else code) ∧
    data !! CONF_DEVICE_FIRMWARE = Some (VStr (deviceFirmware first)) ∧
    data !! OLARM_DEVICE_NAMES = Some (VList (deviceName <$> first :: rest)) ∧
    data !! CONF_OLARM_DEVICES = Some (VList (deviceName <$> first :: rest)) ∧
    data !! OLARM_DEVICES = Some (VDevices (first :: rest)) ∧
    data !! OLARM_DEVICE_AMOUNT =
      Some (VInt (Z.of_nat (length (first :: rest)))) ∧
    dom data =
      list_to_set [ CONF_API_KEY; CONF_SCAN_INTERVAL; CONF_DEVICE_FIRMWARE;
                    CONF_ALARM_CODE; CONF_OLARM_DEVICES; OLARM_DEVICES;
                    OLARM_DEVICE_AMOUNT; OLARM_DEVICE_NAMES ].
Proof.
  intros [Hnd _] Hrun.
  apply async_step_user_created in Hrun
    as (api_key & scan & code & first & rest & te &
        _ & Hk & Hs & Hc & Hdisc & _ & _ & ->).
  exists api_key, scan, code, first, rest.
  repeat (split; [done|]).
  repeat (split; [apply dict_lookup_Some; [exact Hnd | in_list] |]).
  apply dict_dom.
Qed.
(** C6: an options submission keeps every key it does not edit as it is
    in the existing entry, in particular CONF_DEVICE_FIRMWARE,
    OLARM_DEVICE_NAMES and OLARM_DEVICES, and rewrites CONF_API_KEY,
    CONF_SCAN_INTERVAL, CONF_ALARM_CODE, CONF_OLARM_DEVICES (from the
    submission) and OLARM_DEVICE_AMOUNT (from the kept names). *)
Theorem C6_options_keep_unedited_fields config_entry user_input title new :
  distinct_keys →
  async_step_init config_entry (Some user_input) =
    Ret (async_create_entry title new) →
  (∀ k, k ∉ edited_keys → new !! k = entry_data config_entry !! k) ∧
  new !! CONF_DEVICE_FIRMWARE =
    entry_data config_entry !! CONF_DEVICE_FIRMWARE ∧
  new !! OLARM_DEVICE_NAMES = entry_data config_entry !! OLARM_DEVICE_NAMES ∧
  new !! OLARM_DEVICES = entry_data config_entry !! OLARM_DEVICES ∧
  new !! CONF_API_KEY = user_input !! CONF_API_KEY ∧
  new !! CONF_SCAN_INTERVAL = user_input !! CONF_SCAN_INTERVAL ∧
  new !! CONF_ALARM_CODE = stored_alarm_code <$> user_input !! CONF_ALARM_CODE ∧
  new !! CONF_OLARM_DEVICES = user_input !! CONF_OLARM_DEVICES ∧
  (∃ names n,
     entry_data config_entry !! OLARM_DEVICE_NAMES = Some names ∧
     py_len names = Ret n ∧
     new !! OLARM_DEVICE_AMOUNT = Some (VInt n)).
Proof.
  intros Hkeys%distinct_keys_entry Hrun.
  destruct Hkeys as (Hk1 & Hk2 & Hk3 & Hk4 & Hk5 & Hk6 & Hk7).
  apply async_step_init_created in Hrun
    as (code & names & amount & scan & api_key & devices &
        Hc & Hn & Hlen & Hs & Hk & Hd & -> & ->).
  split; [|repeat split].
  - unfold edited_keys. intros k Hk'. by lookup_keys.
  - by lookup_keys.
  - by lookup_keys.
  - by lookup_keys.
  - by lookup_keys.
  - by lookup_keys.
  - lookup_keys. by rewrite Hc.
  - by lookup_keys.
  - exists names, amount. by lookup_keys.
Qed.

(** C8: every entry data produced by either step has
    OLARM_DEVICE_AMOUNT == len(OLARM_DEVICE_NAMES).  The setup step takes
    both from the enumeration result (the devices it discovered): the names
    are the names of those devices, the amount is their number.  The
    options step keeps the names and recomputes the amount from them,
    whatever devices are selected. *)
Theorem C8_amount_is_length_of_names :
  distinct_keys →
  (∀ user_input st title data st',
     async_step_user w (Some user_input) st =
       (Ret (async_create_entry title data), st') →
     amount_matches_names data ∧
     ∃ api_key json,
       user_input !! CONF_API_KEY = Some api_key ∧
       discovered w api_key = Some json ∧
       data !! OLARM_DEVICE_NAMES = Some (VList (deviceName <$> json)) ∧
       data !! OLARM_DEVICE_AMOUNT = Some (VInt (Z.of_nat (length json)))) ∧
  (∀ config_entry user_input title new,
     async_step_init config_entry (Some user_input) =
       Ret (async_create_entry title new) →
     amount_matches_names new ∧
     new !! OLARM_DEVICE_NAMES =
       entry_data config_entry !! OLARM_DEVICE_NAMES ∧
     ∃ names n,
       entry_data config_entry !! OLARM_DEVICE_NAMES = Some names ∧
       py_len names = Ret n ∧
       new !! OLARM_DEVICE_AMOUNT = Some (VInt n)).
Proof.
  intros Hkeys. split.
  - intros user_input st title data st' Hrun.
    split; [by eapply async_step_user_amount|].
    destruct Hkeys as [Hnd _].
    apply async_step_user_created in Hrun
      as (api_key & scan & code & first & rest & te &
          _ & Hk & _ & _ & Hdisc & _ & _ & ->).
    exists api_key, (first :: rest). repeat (split; [done|]).
    split; apply dict_lookup_Some; (exact Hnd || in_list).
  - intros config_entry user_input title new Hrun.
    destruct (async_step_init_amount _ _ _ _ Hkeys Hrun)
      as (names & n & Hold & Hlen & Hnames & Hamount).
    split; [|split].
    + by exists names, n.
    + by rewrite Hold.
    + by exists names, n.
Qed.

(** C9: in both steps the stored alarm code is [None] exactly when the
    submitted code is "1234567890", and the submitted code otherwise; the
    options form displays "1234567890" for a stored [None]; and for every
    alarm code the steps store, submitting the options form with the
    displayed default stores the same alarm code again.  The last part is
    stated twice: for any form the entry yields, and, for an entry whose
    scan interval converts to an integer, with the form itself: it is
    shown, it displays "1234567890" for [None] and the stored code for any
    other stored code, and submitting that default stores the stored code. *)
Theorem C9_alarm_code_round_trip :
  distinct_keys →
  (∀ user_input st title data st' code,
     user_input !! CONF_ALARM_CODE = Some (VStr code) →
     async_step_user w (Some user_input) st =
       (Ret (async_create_entry title data), st') →
     (data !! CONF_ALARM_CODE = Some VNone ↔ code = "1234567890") ∧
     (code ≠ "1234567890" → data !! CONF_ALARM_CODE = Some (VStr code))) ∧
  (∀ config_entry user_input title new code,
     user_input !! CONF_ALARM_CODE = Some (VStr code) →
     async_step_init config_entry (Some user_input) =
       Ret (async_create_entry title new) →
     (new !! CONF_ALARM_CODE = Some VNone ↔ code = "1234567890") ∧
     (code ≠ "1234567890" → new !! CONF_ALARM_CODE = Some (VStr code))) ∧
  (∀ config_entry schema,
     entry_data config_entry !! CONF_ALARM_CODE = Some VNone →
     _get_schema config_entry = Ret schema →
     schema_default schema CONF_ALARM_CODE = Some (VStr "1234567890")) ∧
  (∀ config_entry schema user_input,
     stored_by_flow (entry_data config_entry) →
     _get_schema config_entry = Ret schema →
     user_input !! CONF_ALARM_CODE = schema_default schema CONF_ALARM_CODE →
     is_Some (user_input !! CONF_API_KEY) →
     is_Some (user_input !! CONF_SCAN_INTERVAL) →
     is_Some (user_input !! CONF_OLARM_DEVICES) →
     ∃ new,
       async_step_init config_entry (Some user_input) =
         Ret (async_create_entry "Olarm Sensors" new) ∧
       new !! CONF_ALARM_CODE = entry_data config_entry !! CONF_ALARM_CODE) ∧
  (∀ config_entry scan_interval z,
     stored_by_flow (entry_data config_entry) →
     entry_data config_entry !! CONF_SCAN_INTERVAL = Some scan_interval →
     py_int scan_interval = Ret z →
     ∃ schema stored,
       async_step_init config_entry None =
         Ret (async_show_form "init" schema None) ∧
       entry_data config_entry !! CONF_ALARM_CODE = Some stored ∧
       (stored = VNone ∨ ∃ code, stored = VStr code ∧ code ≠ "1234567890") ∧
       schema_default schema CONF_ALARM_CODE =
         Some (match stored with
               | VNone => VStr "1234567890"
               | _ => stored
               end) ∧
       ∀ user_input,
         user_input !! CONF_ALARM_CODE =
           schema_default schema CONF_ALARM_CODE →
         is_Some (user_input !! CONF_API_KEY) →
         is_Some (user_input !! CONF_SCAN_INTERVAL) →
         is_Some (user_input !! CONF_OLARM_DEVICES) →
         ∃ new,
           async_step_init config_entry (Some user_input) =
             Ret (async_create_entry "Olarm Sensors" new) ∧
           new !! CONF_ALARM_CODE = Some stored).
Proof.
  intros Hkeys.
  assert (∀ code (stored : option value),
            stored = Some (stored_alarm_code (VStr code)) →
            (stored = Some VNone ↔ code = "1234567890") ∧
            (code ≠ "1234567890" → stored = Some (VStr code))) as Hstored.
  { intros code stored ->. unfold stored_alarm_code; simpl.
    case_bool_decide; naive_solver. }
  split; [|split; [|split; [|split]]].
  - intros user_input st title data st' code Hc Hrun.
    destruct (async_step_user_alarm_code _ _ _ _ _ _ Hkeys Hrun)
      as (code' & Hc' & Hd).
    apply Hstored. by simplify_eq.
  - intros config_entry user_input title new code Hc Hrun.
    destruct (async_step_init_alarm_code _ _ _ _ Hkeys Hrun)
      as (code' & Hc' & Hd).
    apply Hstored. by simplify_eq.
  - intros config_entry schema Hnone Hschema.
    destruct (_get_schema_alarm_code _ _ Hkeys Hschema)
      as (stored & Hst & ->).
    by simplify_eq.
  - intros config_entry schema user_input. by apply alarm_code_resubmitted.
  - intros config_entry scan z Hflow Hs Hz.
    destruct (stored_by_flow_inv _ Hkeys Hflow)
      as [(code & Hcode) (names & n & Hn & Hlen)].
    destruct (stored_by_flow_api_key _ Hkeys Hflow) as [api_key Hk].
    destruct (_get_schema_total _ _ _ _ _ _ Hcode Hk Hs Hz Hn)
      as [schema Hschema].
    destruct (_get_schema_alarm_code _ _ Hkeys Hschema)
      as (stored & Hst & Hdefault).
    exists schema, stored.
    split; [unfold async_step_init; by rewrite Hschema|].
    split; [done|]. split; [|split; [done|]].
    + rewrite Hcode in Hst. injection Hst as <-.
      unfold stored_alarm_code; simpl. case_bool_decide; eauto.
    + intros user_input Hc Hk' Hs' Hd'.
      destruct (alarm_code_resubmitted _ _ _ Hkeys Hflow Hschema Hc Hk' Hs' Hd')
        as (new & Hrun & Hnew).
      exists new. split; [done|]. by rewrite Hnew.
Qed.
End Record.

Lemma C5_witness :
  let run := sample_mock_run in
  ∃ data,
    run = (Ret (async_create_entry "Olarm Sensors" data), run.2) ∧
    data !! "api_key" = Some (VStr "mock_api_key") ∧
    data !! "scan_interval" = Some (VInt 30) ∧
    data !! "olarm_arm_code" = Some VNone ∧
    data !! "olarm_device_firmware" = Some (VStr "1.0") ∧
    data !! "olarm_device_names" = Some (VList ["Device1"; "Device2"]) ∧
    data !! "olarm_device_amount" = Some (VInt 2).
Proof.
  intros run. exists (default ∅ (created_data run.1)).
  assert (run = (Ret (async_create_entry "Olarm Sensors"
                        (default ∅ (created_data run.1))), run.2)) as Hrun
    by (vm_compute; reflexivity).
  split; [exact Hrun|].
  assert (distinct_keys (H := sample_const)) as Hkeys by sample_keys.
  destruct (C5_setup_persists_collected_configuration (H := sample_const)
              _ _ _ _ _ _ Hkeys Hrun)
    as (api_key & scan & code & first & rest &
        Hk & Hs & Hc & Hd & Dk & Ds & Dc & Df & Dn & _ & _ & Da & _).
  vm_compute in Hk, Hs, Hc, Hd.
  injection Hk as <-. injection Hs as <-. injection Hc as <-.
  injection Hd as <- <-.
  repeat split; assumption.
Defined.

Lemma C6_witness :
  ∃ new,
    sample_options_run = Ret (async_create_entry "Olarm Sensors" new) ∧
    new !! "olarm_device_firmware" = Some (VStr "1.0") ∧
    new !! "olarm_device_names" = Some (VList ["Device1"; "Device2"]) ∧
    new !! "api_key" = Some (VStr "new_key") ∧
    new !! "selected_olarm_devices" = Some (VList ["Device1"]).
Proof.
  exists (default ∅ (created_data sample_options_run)).
  assert (sample_options_run =
          Ret (async_create_entry "Olarm Sensors"
                 (default ∅ (created_data sample_options_run)))) as Hrun
    by (vm_compute; reflexivity).
  split; [exact Hrun|].
  assert (distinct_keys (H := sample_const)) as Hkeys by sample_keys.
  destruct (C6_options_keep_unedited_fields (H := sample_const)
              (H0 := sample_builtins) _ _ _ _ Hkeys Hrun)
    as (_ & Hfirmware & Hnames & _ & Hkey & _ & _ & Hdevices & _).
  split; [|split; [|split]].
  - etransitivity; [exact Hfirmware|]. vm_compute. reflexivity.
  - etransitivity; [exact Hnames|]. vm_compute. reflexivity.
  - etransitivity; [exact Hkey|]. vm_compute. reflexivity.
  - etransitivity; [exact Hdevices|]. vm_compute. reflexivity.
Defined.

Lemma C8_witness :
  (∃ data,
     sample_remote_run =
       (Ret (async_create_entry "Olarm Sensors" data), sample_remote_run.2) ∧
     amount_matches_names (H := sample_const) data ∧
     data !! "olarm_device_names" = Some (VList ["Home"]) ∧
     data !! "olarm_device_amount" = Some (VInt 1)) ∧
  (∃ new,
     sample_options_run = Ret (async_create_entry "Olarm Sensors" new) ∧
     amount_matches_names (H := sample_const) new ∧
     new !! "olarm_device_amount" = Some (VInt 2) ∧
     new !! "selected_olarm_devices" = Some (VList ["Device1"])).
Proof.
  assert (distinct_keys (H := sample_const)) as Hkeys by sample_keys.
  destruct (C8_amount_is_length_of_names (H := sample_const)
              (H0 := sample_builtins)
              (world_returning (Some sample_devices)) Hkeys)
    as [Hsetup Hoptions].
  split.
  - exists (default ∅ (created_data sample_remote_run.1)).
    assert (sample_remote_run =
            (Ret (async_create_entry "Olarm Sensors"
                    (default ∅ (created_data sample_remote_run.1))),
             sample_remote_run.2)) as Hrun by (vm_compute; reflexivity).
    split; [exact Hrun|].
    destruct (Hsetup _ _ _ _ _ Hrun)
      as (Hinv & api_key & json & Hk & Hdisc & Hnames & Hamount).
    split; [exact Hinv|].
    vm_compute in Hk. injection Hk as <-.
    vm_compute in Hdisc. injection Hdisc as <-.
    split; [exact Hnames | exact Hamount].
  - exists (default ∅ (created_data sample_options_run)).
    assert (sample_options_run =
            Ret (async_create_entry "Olarm Sensors"
                   (default ∅ (created_data sample_options_run)))) as Hrun
      by (vm_compute; reflexivity).
    split; [exact Hrun|].
    destruct (Hoptions _ _ _ _ Hrun)
      as (Hinv & _ & names & n & Hold & Hlen & Hnew).
    split; [exact Hinv|].
    vm_compute in Hold. injection Hold as <-.
    vm_compute in Hlen. injection Hlen as <-.
    split; [exact Hnew|]. vm_compute. reflexivity.
Defined.

Lemma C9_witness :
  (schema_default sample_options_schema "olarm_arm_code" =
     Some (VStr "1234567890") ∧
   ∃ new,
     OlarmOptionsFlow.async_step_init (H := sample_const)
       (H0 := sample_builtins) sample_entry
       (Some (options_submission (H := sample_const)
                "mock_api_key" 30 (VStr "1234567890")
                ["Device1"; "Device2"])) =
       Ret (async_create_entry "Olarm Sensors" new) ∧
     new !! "olarm_arm_code" = Some VNone) ∧
  (∃ schema new,
     OlarmOptionsFlow.async_step_init (H := sample_const)
       (H0 := sample_builtins) sample_remote_entry None =
       Ret (async_show_form "init" schema None) ∧
     schema_default schema "olarm_arm_code" = Some (VStr "4321") ∧
     OlarmOptionsFlow.async_step_init (H := sample_const)
       (H0 := sample_builtins) sample_remote_entry
       (Some (options_submission (H := sample_const)
                "real_key" 30 (VStr "4321") ["Home"])) =
       Ret (async_create_entry "Olarm Sensors" new) ∧
     new !! "olarm_arm_code" = Some (VStr "4321")).
Proof.
  assert (distinct_keys (H := sample_const)) as Hkeys by sample_keys.
  destruct (C9_alarm_code_round_trip (H := sample_const)
              (H0 := sample_builtins) (world_returning None) Hkeys)
    as (_ & _ & Hshown & Hround & Hform).
  split; [split|].
  - apply (Hshown sample_entry); vm_compute; reflexivity.
  - destruct (Hround sample_entry sample_options_schema
                (options_submission (H := sample_const)
                   "mock_api_key" 30 (VStr "1234567890")
                   ["Device1"; "Device2"]))
      as (new & Hrun & Hcode).
    + left.
      exists (world_returning None),
        (submission (H := sample_const) "mock_api_key" 30 "1234567890"),
        (fresh_state (H := sample_const)), "Olarm Sensors",
        sample_mock_run.2, "1234567890".
      split; vm_compute; reflexivity.
    + vm_compute. reflexivity.
    + vm_compute. reflexivity.
    + vm_compute. eauto.
    + vm_compute. eauto.
    + vm_compute. eauto.
    + exists new. split; [exact Hrun|].
      etransitivity; [exact Hcode|]. vm_compute. reflexivity.
  - destruct (Hform sample_remote_entry (VInt 30) 30)
      as (schema & stored & Hshow & Hst & _ & Hdefault & Hsubmit).
    + left.
      exists (world_returning (Some sample_devices)),
        (submission (H := sample_const) "real_key" 30 "4321"),
        (fresh_state (H := sample_const)), "Olarm Sensors",
        sample_remote_run.2, "4321".
      split; vm_compute; reflexivity.
    + vm_compute. reflexivity.
    + reflexivity.
    + vm_compute in Hst. injection Hst as <-.
      destruct (Hsubmit (options_submission (H := sample_const)
                           "real_key" 30 (VStr "4321") ["Home"]))
        as (new & Hrun & Hnew).
      * rewrite Hdefault. vm_compute. reflexivity.
      * vm_compute. eauto.
      * vm_compute. eauto.
      * vm_compute. eauto.
      * exists schema, new. repeat split; assumption.
Defined.

(** ** The remote enumeration and the registered coordinators *)

Section Registered.
Context `{Const}.
Import OlarmSensorsConfigFlow.

Lemma registered_snoc temp_entry json device d :
  registered temp_entry (json ++ [device]) d =
  <[deviceId device := new_coordinator temp_entry device]>
    (registered temp_entry json d).
Proof. unfold registered. by rewrite foldl_app. Qed.

(** Every device of the list ends up with a coordinator under its id. *)
Lemma registered_lookup temp_entry json d device :
  device ∈ json →
  ∃ c, registered temp_entry json d !! deviceId device = Some c ∧
       device_id c = deviceId device.
Proof.
  induction json as [|last json IH] using rev_ind; [by intros ?%elem_of_nil|].
  intros Hin. rewrite registered_snoc.
  destruct (decide (deviceId last = deviceId device)) as [Heq|Hne].
  - rewrite Heq, lookup_insert_eq. eexists. split; [done|]. by simpl.
  - rewrite lookup_insert_ne by done. apply IH.
    apply elem_of_app in Hin as [?|Hl%list_elem_of_singleton]; [done|].
    by subst.
Qed.
End Registered.

Section Enumeration.
Context `{Const} `{Builtins} (w : World).
Import OlarmSensorsConfigFlow.

(** C7: a submission with a non-empty API key other than the mock key
    makes exactly one device enumeration, the first call of the run;
    nothing after it (the coordinator updates included) is an enumeration.
    This holds whatever the outcome of the step is. *)
Theorem C7_exactly_one_enumeration
    user_input api_key scan_interval alarm_code st o st' :
  submitted user_input api_key scan_interval alarm_code →
  api_key ≠ "" →
  api_key ≠ "mock_api_key" →
  async_step_user w (Some user_input) st = (o, st') →
  (∃ evs, trace st' = trace st ++ EvGetOlarmDevices (VStr api_key) :: evs ∧
          enumeration_calls evs = 0%nat) ∧
  enumeration_calls (trace st') = S (enumeration_calls (trace st)).
Proof.
  intros (Hk & Hs & Hc) Hne Hnm Hrun.
  assert (∃ evs, trace st' =
                   trace st ++ EvGetOlarmDevices (VStr api_key) :: evs ∧
                 enumeration_calls evs = 0%nat) as (evs & Htrace & Hevs).
  { rewrite (async_step_user_eq w _ _ _ _ _
               (validate_submitted _ _ _ Hk Hs) Hk Hs Hc) in Hrun.
    cbv zeta in Hrun. simpl in Hrun.
    rewrite !bool_decide_false in Hrun by done. simpl in Hrun.
    destruct (get_olarm_devices w (VStr api_key)) as [[json|]|e].
    - case_bool_decide.
      + injection Hrun as <- <-. by exists [].
      + apply setup_entry_trace in Hrun as (evs & -> & Hevs).
        exists evs. split; [|done]. simpl. by rewrite <-app_assoc.
    - injection Hrun as <- <-. by exists [].
    - destruct e; injection Hrun as <- <-; by eexists. }
  split; [by exists evs|].
  rewrite Htrace, enumeration_calls_app.
  change (EvGetOlarmDevices (VStr api_key) :: evs)
    with ([EvGetOlarmDevices (VStr api_key)] ++ evs).
  rewrite enumeration_calls_app, Hevs. simpl. lia.
Qed.

(** C2, as the code has it: an entry is created only after a successful
    call of [get_olarm_devices] with the submitted key that returned at
    least one device, and it is built from the devices of that call; unless
    the key is "mock_api_key": then no remote call is made and the entry is
    built from the two built-in devices Device1 (firmware 1.0, id 123,
    Paradox) and Device2 (firmware 1.1, id 124, IDS). *)
Theorem C2_entry_after_enumeration_unless_mock
    user_input st title data st' :
  async_step_user w (Some user_input) st =
    (Ret (async_create_entry title data), st') →
  ∃ api_key scan_interval code,
    user_input !! CONF_API_KEY = Some api_key ∧
    user_input !! CONF_SCAN_INTERVAL = Some scan_interval ∧
    user_input !! CONF_ALARM_CODE = Some code ∧
    (py_eq_str api_key "mock_api_key" = false →
       (∃ first rest,
          get_olarm_devices w api_key = Ret (Some (first :: rest)) ∧
          data = created_entry_data api_key scan_interval
                   (stored_alarm_code code) first rest) ∧
       (∃ evs, trace st' = trace st ++ EvGetOlarmDevices api_key :: evs ∧
               enumeration_calls evs = 0%nat)) ∧
    (py_eq_str api_key "mock_api_key" = true →
       enumeration_calls (trace st') = enumeration_calls (trace st) ∧
       (∀ key, EvGetOlarmDevices key ∉ drop (length (trace st)) (trace st')) ∧
       data = created_entry_data api_key scan_interval (stored_alarm_code code)
                {| deviceName := "Device1"; deviceFirmware := "1.0";
                   deviceId := "123"; deviceAlarmType := "Paradox" |}
                [ {| deviceName := "Device2"; deviceFirmware := "1.1";
                     deviceId := "124"; deviceAlarmType := "IDS" |} ]).
Proof.
  intros Hrun.
  apply async_step_user_created in Hrun
    as (api_key & scan & code & first & rest & te &
        Hv & Hk & Hs & Hc & Hdisc & Hloop & _ & ->).
  exists api_key, scan, code. repeat (split; [done|]).
  apply register_coordinators_trace in Hloop as (evs & Htrace & Hevs).
  unfold discovered in Hdisc. unfold after_enumeration in Htrace.
  assert (py_eq_str api_key "" = false) as Hne.
  { pose proof (validate_empty _ _ Hv Hk) as Hnot.
    destruct api_key; try done. }
  rewrite Hne, orb_false_r in Hdisc, Htrace.
  split; intros Hmock; rewrite Hmock in Hdisc, Htrace.
  - split.
    + destruct (get_olarm_devices w api_key) as [json|]; [|done].
      exists first, rest. by rewrite Hdisc.
    + exists evs. split; [|done]. rewrite Htrace; simpl.
      by rewrite <-app_assoc.
  - split; [|split].
    + rewrite Htrace, enumeration_calls_app, Hevs. lia.
    + intros key Hin. rewrite Htrace, drop_app_length in Hin.
      unfold enumeration_calls in Hevs.
      apply length_zero_iff_nil in Hevs.
      assert (EvGetOlarmDevices key ∈ List.filter is_enumeration evs) as Hf
        by (apply list_elem_of_In, List.filter_In; split;
            [by apply list_elem_of_In | done]).
      rewrite Hevs in Hf. by apply elem_of_nil in Hf.
    + by injection Hdisc as <- <-.
Qed.

(** C3, as the code has it: the setup step has no device selection.  Its
    form has the three fields API key, scan interval and alarm code; the
    names persisted under CONF_OLARM_DEVICES are the names of all the
    discovered devices; and a coordinator is registered in
    [hass.data[DOMAIN]] under the id of every discovered device.  The
    selection is made in the options step, which persists the submitted
    CONF_OLARM_DEVICES. *)
Theorem C3_setup_monitors_every_discovered_device :
  distinct_keys →
  marker_key <$> _get_schema.*1 =
    [ CONF_API_KEY; CONF_SCAN_INTERVAL; CONF_ALARM_CODE ] ∧
  (CONF_OLARM_DEVICES ∉ marker_key <$> _get_schema.*1) ∧
  (∀ user_input st title data st',
     async_step_user w (Some user_input) st =
       (Ret (async_create_entry title data), st') →
     ∃ api_key json temp_entry d,
       user_input !! CONF_API_KEY = Some api_key ∧
       discovered w api_key = Some json ∧
       data !! CONF_OLARM_DEVICES = Some (VList (deviceName <$> json)) ∧
       hass_data st !! DOMAIN = Some d ∧
       hass_data st' =
         <[DOMAIN := registered temp_entry json d]> (hass_data st) ∧
       ∀ device, device ∈ json →
         ∃ c, registered temp_entry json d !! deviceId device = Some c ∧
              device_id c = deviceId device) ∧
  (∀ config_entry user_input title new,
     OlarmOptionsFlow.async_step_init config_entry (Some user_input) =
       Ret (async_create_entry title new) →
     new !! CONF_OLARM_DEVICES = user_input !! CONF_OLARM_DEVICES).
Proof.
  intros Hkeys.
  split; [done|]. split; [|split].
  { apply distinct_keys_entry in Hkeys as (Hk1 & Hk2 & Hk3 & Hk4 & _).
    simpl. split_keys. rewrite !not_elem_of_cons.
    repeat split; try congruence. apply not_elem_of_nil. }
  - intros user_input st title data st' Hrun.
    destruct Hkeys as [Hnd _].
    apply async_step_user_created in Hrun
      as (api_key & scan & code & first & rest & te &
          _ & Hk & _ & _ & Hdisc & Hloop & _ & ->).
    assert (∀ device, device ∈ first :: rest →
              deviceName device ∈ deviceName <$> first :: rest) as Hall
      by (intros device ?; by apply list_elem_of_fmap_2).
    destruct (register_coordinators_domain w _ _ _ _ _ _
                (Hall first ltac:(left)) Hloop) as [d Hd].
    assert (hass_data (after_enumeration api_key st) = hass_data st)
      as Hsame by (unfold after_enumeration; by case_match).
    pose proof (register_coordinators_Ret w _ _ _ _ _ _ Hall Hd Hloop)
      as Hdata.
    rewrite Hsame in Hd, Hdata.
    exists api_key, (first :: rest), te, d.
    repeat (split; [done|]).
    split; [apply dict_lookup_Some; [exact Hnd | in_list] |].
    repeat (split; [done|]).
    intros device Hin. by apply registered_lookup.
  - intros config_entry user_input title new Hrun.
    apply async_step_init_created in Hrun
      as (code & names & amount & scan & api_key & devices &
          _ & _ & _ & _ & _ & Hd & _ & ->).
    by rewrite lookup_insert_eq.
Qed.
End Enumeration.

(** The round trip is about the codes the steps store.  An entry holding
    the string "1234567890" itself, which neither step stores, is displayed
    as that string and stored back as [None]. *)
Remark literal_sentinel_is_stored_as_None :
  let config_entry :=
    {| entry_domain := "olarm_sensors"; entry_source := "user";
       entry_version := 1; entry_minor_version := 0;
       entry_title := "Olarm Sensors";
       entry_data := <["olarm_arm_code" := VStr "1234567890"]>
                       (entry_data sample_entry) |} in
  ∃ schema new,
    OlarmOptionsFlow._get_schema (H := sample_const) (H0 := sample_builtins)
      config_entry = Ret schema ∧
    schema_default schema "olarm_arm_code" = Some (VStr "1234567890") ∧
    OlarmOptionsFlow.async_step_init (H := sample_const)
      (H0 := sample_builtins) config_entry
      (Some (options_submission (H := sample_const)
               "mock_api_key" 30 (VStr "1234567890") ["Device1"; "Device2"])) =
      Ret (async_create_entry "Olarm Sensors" new) ∧
    new !! "olarm_arm_code" = Some VNone.
Proof.
  intros config_entry.
  eexists _, (default ∅ (created_data (OlarmOptionsFlow.async_step_init
                (H := sample_const) (H0 := sample_builtins) config_entry
                (Some (options_submission (H := sample_const)
                   "mock_api_key" 30 (VStr "1234567890")
                   ["Device1"; "Device2"]))))).
  split; [by vm_compute|]. split; [by vm_compute|].
  split; by vm_compute.
Qed.

Lemma C7_witness :
  enumeration_calls (trace sample_remote_run.2) = 1%nat.
Proof.
  refine (proj2 (C7_exactly_one_enumeration (H := sample_const)
                   (world_returning (Some sample_devices))
                   (submission (H := sample_const) "real_key" 30 "4321")
                   "real_key" 30 "4321" (fresh_state (H := sample_const))
                   sample_remote_run.1 sample_remote_run.2 _ _ _ _)).
  - repeat split; vm_compute; reflexivity.
  - discriminate.
  - discriminate.
  - vm_compute. reflexivity.
Defined.

Lemma C2_witness :
  (∃ evs,
     trace sample_remote_run.2 = EvGetOlarmDevices (VStr "real_key") :: evs ∧
     created_data sample_remote_run.1 =
       Some (created_entry_data (H := sample_const) (VStr "real_key")
               (VInt 30) (VStr "4321")
               {| deviceName := "Home"; deviceFirmware := "2.3";
                  deviceId := "abc-1"; deviceAlarmType := "Paradox" |} [])) ∧
  created_data sample_mock_run.1 =
    Some (created_entry_data (H := sample_const) (VStr "mock_api_key")
            (VInt 30) VNone
            {| deviceName := "Device1"; deviceFirmware := "1.0";
               deviceId := "123"; deviceAlarmType := "Paradox" |}
            [ {| deviceName := "Device2"; deviceFirmware := "1.1";
                 deviceId := "124"; deviceAlarmType := "IDS" |} ]).
Proof.
  split.
  - destruct (C2_entry_after_enumeration_unless_mock (H := sample_const)
                (world_returning (Some sample_devices))
                (submission (H := sample_const) "real_key" 30 "4321")
                (fresh_state (H := sample_const)) "Olarm Sensors"
                (default ∅ (created_data sample_remote_run.1))
                sample_remote_run.2)
      as (api_key & scan & code & Hk & Hs & Hc & Hremote & _).
    + vm_compute. reflexivity.
    + vm_compute in Hk, Hs, Hc.
      injection Hk as <-. injection Hs as <-. injection Hc as <-.
      destruct Hremote
        as [(first & rest & Hget & Hdata) (evs & Htrace & _)]; [reflexivity|].
      injection Hget as <- <-.
      exists evs. split; [exact Htrace|].
      change (created_data sample_remote_run.1)
        with (Some (default ∅ (created_data sample_remote_run.1))).
      by rewrite Hdata.
  - destruct (C2_entry_after_enumeration_unless_mock (H := sample_const)
                (world_returning None)
                (submission (H := sample_const) "mock_api_key" 30 "1234567890")
                (fresh_state (H := sample_const)) "Olarm Sensors"
                (default ∅ (created_data sample_mock_run.1))
                sample_mock_run.2)
      as (api_key & scan & code & Hk & Hs & Hc & _ & Hmock).
    + vm_compute. reflexivity.
    + vm_compute in Hk, Hs, Hc.
      injection Hk as <-. injection Hs as <-. injection Hc as <-.
      destruct Hmock as (_ & _ & Hdata); [reflexivity|].
      change (created_data sample_mock_run.1)
        with (Some (default ∅ (created_data sample_mock_run.1))).
      by rewrite Hdata.
Defined.

(** At the mock key an entry is created although the service was never
    called (and would have returned [None]). *)
Lemma C2_counterexample :
  created_data sample_mock_run.1 ≠ None ∧
  (∀ api_key, EvGetOlarmDevices api_key ∉ trace sample_mock_run.2) ∧
  enumeration_calls (trace sample_mock_run.2) = 0%nat.
Proof.
  split; [by vm_compute|]. split; [|by vm_compute].
  intros api_key Hin. vm_compute in Hin.
  repeat (apply elem_of_cons in Hin as [Hin|Hin]; [discriminate|]).
  by apply elem_of_nil in Hin.
Qed.

Lemma C3_witness :
  ∃ data,
    sample_mock_run =
      (Ret (async_create_entry "Olarm Sensors" data), sample_mock_run.2) ∧
    data !! "selected_olarm_devices" = Some (VList ["Device1"; "Device2"]).
Proof.
  exists (default ∅ (created_data sample_mock_run.1)).
  assert (sample_mock_run =
          (Ret (async_create_entry "Olarm Sensors"
                  (default ∅ (created_data sample_mock_run.1))),
           sample_mock_run.2)) as Hrun by (vm_compute; reflexivity).
  split; [exact Hrun|].
  assert (distinct_keys (H := sample_const)) as Hkeys by sample_keys.
  destruct (C3_setup_monitors_every_discovered_device (H := sample_const)
              (H0 := sample_builtins) (world_returning None) Hkeys)
    as (_ & _ & Hsetup & _).
  destruct (Hsetup _ _ _ _ _ Hrun)
    as (api_key & json & te & d & Hk & Hdisc & Hdata & _).
  vm_compute in Hk. injection Hk as <-.
  vm_compute in Hdisc. injection Hdisc as <-.
  exact Hdata.
Defined.

(** The user selects Device1 only, a strict subset of the two discovered
    devices: the entry still persists both names and a coordinator is
    registered for Device2 (id 124) as well; the same entry data results
    when the submission carries no selection. *)
Lemma C3_counterexample :
  (∃ data domain,
     sample_selecting_run.1 = Ret (async_create_entry "Olarm Sensors" data) ∧
     data !! "selected_olarm_devices" = Some (VList ["Device1"; "Device2"]) ∧
     data !! "selected_olarm_devices" ≠ Some (VList ["Device1"]) ∧
     hass_data sample_selecting_run.2 !! "olarm_sensors" = Some domain ∧
     dom domain = {[ "123"; "124" ]}) ∧
  created_data sample_mock_run.1 = created_data sample_selecting_run.1.
Proof.
  split; [|by vm_compute].
  exists (default ∅ (created_data sample_selecting_run.1)),
    (default ∅ (hass_data sample_selecting_run.2 !! "olarm_sensors")).
  split; [by vm_compute|]. split; [by vm_compute|].
  split; [by vm_compute|]. split; [by vm_compute|].
  by vm_compute.
Qed.

(** ** Submissions that do not create an entry *)

Section Errors.
Context `{Const} (w : World).
Import OlarmSensorsConfigFlow.

(** The entries of the error dictionary after the checks. *)
Lemma validate_submitted_lookup user_input api_key scan_interval errors :
  CONF_API_KEY ≠ CONF_SCAN_INTERVAL →
  user_input !! CONF_API_KEY = Some (VStr api_key) →
  user_input !! CONF_SCAN_INTERVAL = Some (VInt scan_interval) →
  validate user_input = Ret errors →
  errors !! CONF_API_KEY =
    (if bool_decide (api_key = "")
     then Some "API key is required." else None) ∧
  errors !! CONF_SCAN_INTERVAL =
    (if bool_decide (scan_interval = 0)
     then Some "Scan interval is required."
     else if bool_decide (scan_interval < 8)
     then Some "Scan interval must be at least 8 seconds."
     else None).
Proof.
  intros Hne Hk Hs Hv.
  rewrite (validate_submitted _ _ _ Hk Hs) in Hv. apply Ret_inj in Hv as <-.
  cbv zeta. repeat case_bool_decide; split;
    rewrite ?lookup_insert_eq, ?lookup_insert_ne by congruence;
    rewrite ?lookup_singleton_eq, ?lookup_singleton_ne by congruence;
    by rewrite ?lookup_empty.
Qed.

(** C1, on the code: when the enumeration raises [APIForbiddenError] the
    [except] clause logs the warning and records the error, but leaves the
    local [json] unassigned; the read of [json] on line 94 then raises
    [UnboundLocalError], so no form is returned. *)
Theorem C1_forbidden_enumeration_raises_unbound_local
    user_input api_key scan_interval alarm_code st :
  submitted user_input api_key scan_interval alarm_code →
  api_key ≠ "" →
  api_key ≠ "mock_api_key" →
  get_olarm_devices w (VStr api_key) = Raise APIForbiddenError →
  async_step_user w (Some user_input) st =
    (Raise (UnboundLocalError "json"),
     log st [ EvGetOlarmDevices (VStr api_key);
              EvLogWarning
                "User entered invalid credentials or API access is not enabled!" ]).
Proof.
  intros (Hk & Hs & Hc) Hne Hnm Hget.
  rewrite (async_step_user_eq w _ _ _ _ _
             (validate_submitted _ _ _ Hk Hs) Hk Hs Hc).
  cbv zeta. simpl. rewrite !bool_decide_false by done. simpl.
  by rewrite Hget.
Qed.

(** C10, on the code: a submission that passes the checks and whose
    enumeration succeeds with zero devices takes no error branch; the read
    of [json[0]] on line 104 raises [IndexError]. *)
Theorem C10_empty_enumeration_raises_index_error
    user_input api_key scan_interval alarm_code st :
  submitted user_input api_key scan_interval alarm_code →
  api_key ≠ "" →
  api_key ≠ "mock_api_key" →
  (8 ≤ scan_interval)%Z →
  get_olarm_devices w (VStr api_key) = Ret (Some []) →
  async_step_user w (Some user_input) st =
    (Raise IndexError, log st [ EvGetOlarmDevices (VStr api_key) ]).
Proof.
  intros (Hk & Hs & Hc) Hne Hnm Hz Hget.
  pose proof (validate_submitted _ _ _ Hk Hs) as Hv.
  rewrite (async_step_user_eq w _ _ _ _ _ Hv Hk Hs Hc).
  cbv zeta. simpl.
  rewrite (bool_decide_false (api_key = "")),
    (bool_decide_false (api_key = "mock_api_key")),
    (bool_decide_false (scan_interval = 0)),
    (bool_decide_false (scan_interval < 8)) by (done || lia).
  simpl. rewrite Hget.
  by rewrite bool_decide_false by (intros Hx; by apply Hx).
Qed.

(** C4, as the code has it: when a validation error is recorded (empty API
    key, zero scan interval, or scan interval below 8) no entry is created
    and [hass.data] is left as it was; and when the enumeration is skipped
    (mock or empty key) or returns, the step shows the setup form with
    those errors (and the authentication error as well, when the
    enumeration returned [None]). *)
Theorem C4_validation_errors_show_form_without_effects
    user_input api_key scan_interval alarm_code st o st' :
  distinct_keys →
  submitted user_input api_key scan_interval alarm_code →
  api_key = "" ∨ scan_interval = 0 ∨ scan_interval < 8 →
  async_step_user w (Some user_input) st = (o, st') →
  created_data o = None ∧
  hass_data st' = hass_data st ∧
  ((api_key = "mock_api_key" ∨ api_key = "" ∨
    ∃ json, get_olarm_devices w (VStr api_key) = Ret json) →
   ∃ errors,
     o = Ret (async_show_form "user" _get_schema (Some errors)) ∧
     errors !! CONF_API_KEY =
       (if bool_decide (api_key = "")
        then Some "API key is required." else None) ∧
     errors !! CONF_SCAN_INTERVAL =
       (if bool_decide (scan_interval = 0)
        then Some "Scan interval is required."
        else if bool_decide (scan_interval < 8)
        then Some "Scan interval must be at least 8 seconds."
        else None) ∧
     (api_key ≠ "mock_api_key" → api_key ≠ "" →
      get_olarm_devices w (VStr api_key) = Ret None →
      errors !! AUTHENTICATION_ERROR = Some "Invalid credentials!")).
Proof.
  intros Hkeys (Hk & Hs & Hc) Hbad Hrun.
  pose proof (validate_submitted _ _ _ Hk Hs) as Hv.
  match type of Hv with
  | _ = Ret ?e => set (errors := e) in Hv; clearbody errors
  end.
  pose proof (proj2 (validate_submitted_errors _ _ _ _ Hk Hs Hv) Hbad) as Herr.
  assert (CONF_API_KEY ≠ CONF_SCAN_INTERVAL ∧
          AUTHENTICATION_ERROR ≠ CONF_API_KEY ∧
          AUTHENTICATION_ERROR ≠ CONF_SCAN_INTERVAL) as (Hne1 & Hne2 & Hne3).
  { destruct Hkeys as [Hnd Hauth].
    apply NoDup_cons in Hnd as [Hnd _]. split_keys. done. }
  destruct (validate_submitted_lookup _ _ _ _ Hne1 Hk Hs Hv) as [Hek Hes].
  rewrite (async_step_user_eq w _ _ _ _ _ Hv Hk Hs Hc) in Hrun.
  cbv zeta in Hrun. simpl in Hrun.
  rewrite (bool_decide_true (errors ≠ ∅)) in Hrun by done.
  destruct (bool_decide (api_key = "mock_api_key") ||
            bool_decide (api_key = "")) eqn:Hmock.
  { injection Hrun as <- <-. repeat split. intros _.
    exists errors. repeat split; try done.
    intros ? ?. apply orb_true_iff in Hmock as [?%bool_decide_eq_true|
                                                ?%bool_decide_eq_true]; done. }
  destruct (get_olarm_devices w (VStr api_key)) as [[json|]|e] eqn:Hget.
  - injection Hrun as <- <-. repeat split. intros _.
    exists errors. repeat split; try done.
  - injection Hrun as <- <-. repeat split. intros _.
    eexists. split; [done|].
    by rewrite !lookup_insert_ne, lookup_insert_eq by done.
  - apply orb_false_iff in Hmock
      as [?%bool_decide_eq_false ?%bool_decide_eq_false].
    assert (created_data o = None ∧ hass_data st' = hass_data st) as [??]
      by (destruct e; by injection Hrun as <- <-).
    repeat split; try done.
    intros [?|[?|[json ?]]]; done.
Qed.
End Errors.

Lemma C1_witness :
  sample_forbidden_run.1 = Raise (UnboundLocalError "json") ∧
  shown_errors sample_forbidden_run.1 = None.
Proof.
  pose proof (C1_forbidden_enumeration_raises_unbound_local
                (H := sample_const) (world_raising APIForbiddenError)
                (submission (H := sample_const) "real_key" 30 "1234567890")
                "real_key" 30 "1234567890" (fresh_state (H := sample_const)))
    as Hrun.
  change (OlarmSensorsConfigFlow.async_step_user _ _ _) with sample_forbidden_run
    in Hrun.
  rewrite Hrun.
  - split; reflexivity.
  - repeat split; vm_compute; reflexivity.
  - discriminate.
  - discriminate.
  - reflexivity.
Defined.

Lemma C10_witness :
  sample_no_device_run.1 = Raise IndexError ∧
  created_data sample_no_device_run.1 = None.
Proof.
  pose proof (C10_empty_enumeration_raises_index_error
                (H := sample_const) (world_returning (Some []))
                (submission (H := sample_const) "real_key" 30 "1234567890")
                "real_key" 30 "1234567890" (fresh_state (H := sample_const)))
    as Hrun.
  change (OlarmSensorsConfigFlow.async_step_user _ _ _) with sample_no_device_run
    in Hrun.
  rewrite Hrun.
  - split; reflexivity.
  - repeat split; vm_compute; reflexivity.
  - discriminate.
  - discriminate.
  - lia.
  - reflexivity.
Defined.

Lemma C4_witness :
  ∃ errors,
    sample_short_interval_run.1 =
      Ret (async_show_form "user"
             (OlarmSensorsConfigFlow._get_schema (H := sample_const))
             (Some errors)) ∧
    errors !! "scan_interval" =
      Some "Scan interval must be at least 8 seconds." ∧
    errors !! "auth_error" = Some "Invalid credentials!" ∧
    hass_data sample_short_interval_run.2 =
      hass_data (fresh_state (H := sample_const)).
Proof.
  assert (distinct_keys (H := sample_const)) as Hkeys by sample_keys.
  destruct (C4_validation_errors_show_form_without_effects
              (H := sample_const) (world_returning None)
              (submission (H := sample_const) "real_key" 5 "1234567890")
              "real_key" 5 "1234567890" (fresh_state (H := sample_const))
              sample_short_interval_run.1 sample_short_interval_run.2 Hkeys)
    as (_ & Hhass & Hform).
  - repeat split; vm_compute; reflexivity.
  - right; right. lia.
  - vm_compute. reflexivity.
  - destruct Hform as (errors & Ho & _ & Hscan & Hauth).
    + right; right. by exists None.
    + exists errors. split; [exact Ho|]. split; [exact Hscan|].
      split; [|exact Hhass]. by apply Hauth.
Defined.

(** A validation error is recorded (the scan interval is 5), yet the step
    does not return the form: the enumeration is still attempted and its
    exception leaves the step. *)
Lemma C4_counterexample :
  (∃ errors,
     OlarmSensorsConfigFlow.validate (H := sample_const)
       (submission (H := sample_const) "real_key" 5 "1234567890") = Ret errors ∧
     errors !! "scan_interval" =
       Some "Scan interval must be at least 8 seconds.") ∧
  sample_unreachable_run.1 = Raise (ExternalError "cannot connect") ∧
  shown_errors sample_unreachable_run.1 = None.
Proof.
  split; [|split; by vm_compute].
  eexists. split; by vm_compute.
Qed.


(** ** More on the coordinator loop *)

Section LoopRuns.
Context `{Const} (w : World).
Import OlarmSensorsConfigFlow.

Lemma loop_events_cons te device json :
  loop_events te (device :: json) = device_events te device ++ loop_events te json.
Proof. done. Qed.

Lemma loop_events_app te json1 json2 :
  loop_events te (json1 ++ json2) = loop_events te json1 ++ loop_events te json2.
Proof. unfold loop_events. by rewrite fmap_app, concat_app. Qed.

(** One pass of the loop for a selected device whose update returns. *)
Lemma register_coordinators_step te names device rest st d :
  deviceName device ∈ names →
  update_data w (new_coordinator te device) = Ret tt →
  hass_data st !! DOMAIN = Some d →
  register_coordinators w te names (device :: rest) st =
  register_coordinators w te names rest
    {| hass_data :=
         <[DOMAIN := <[deviceId device := new_coordinator te device]> d]>
           (hass_data st);
       trace := trace st ++ device_events te device |}.
Proof.
  intros Hin Hupd Hd. simpl. unfold mbind at 1, Flow_bind.
  rewrite bool_decide_false by (by intros Hn).
  unfold mbind, Flow_bind, emit, lift, hass_data_setitem, log; simpl.
  rewrite Hupd, Hd. simpl. by rewrite <-app_assoc.
Qed.

(** A loop whose updates all return registers every device. *)
Lemma register_coordinators_success te names json st d :
  (∀ device, device ∈ json → deviceName device ∈ names) →
  (∀ device, device ∈ json → update_data w (new_coordinator te device) = Ret tt) →
  hass_data st !! DOMAIN = Some d →
  register_coordinators w te names json st =
  (Ret tt, {| hass_data := <[DOMAIN := registered te json d]> (hass_data st);
              trace := trace st ++ loop_events te json |}).
Proof.
  revert st d. induction json as [|device rest IH]; intros st d Hin Hupd Hd.
  - simpl. unfold mret, Flow_ret. f_equal. destruct st as [hd tr]; simpl in *.
    by rewrite insert_id, app_nil_r.
  - rewrite (register_coordinators_step _ _ _ _ _ d);
      [|apply Hin; left|apply Hupd; left|done].
    erewrite IH; simpl.
    + rewrite insert_insert_eq, loop_events_cons. by rewrite <-app_assoc.
    + intros ??. apply Hin. by right.
    + intros ??. apply Hupd. by right.
    + by rewrite lookup_insert_eq.
Qed.

(** The loop over two lists in a row. *)
Lemma register_coordinators_app te names json1 json2 st :
  register_coordinators w te names (json1 ++ json2) st =
  match register_coordinators w te names json1 st with
  | (Ret _, st1) => register_coordinators w te names json2 st1
  | (Raise e, st1) => (Raise e, st1)
  end.
Proof.
  revert st. induction json1 as [|device rest IH]; intros st; [done|].
  change (register_coordinators w te names ((device :: rest) ++ json2))
    with (λ st, register_coordinators w te names (device :: rest ++ json2) st).
  simpl. unfold mbind at 1 5, Flow_bind.
  match goal with
  | |- context [ let (_, _) := ?m st in _ ] =>
      destruct (m st) as [[[]|e] st1]; [apply IH|done]
  end.
Qed.

(** A loop stopped by a failing update keeps what it registered before. *)
Lemma register_coordinators_failure te names before device after st d e :
  (∀ device', device' ∈ before ++ [device] → deviceName device' ∈ names) →
  (∀ device', device' ∈ before →
     update_data w (new_coordinator te device') = Ret tt) →
  update_data w (new_coordinator te device) = Raise e →
  hass_data st !! DOMAIN = Some d →
  register_coordinators w te names (before ++ device :: after) st =
  (Raise e,
   {| hass_data := <[DOMAIN := registered te before d]> (hass_data st);
      trace := trace st ++ loop_events te before ++ device_events te device |}).
Proof.
  intros Hin Hupd Hfail Hd.
  rewrite register_coordinators_app.
  rewrite (register_coordinators_success _ _ _ _ d); [| |done|done].
  - simpl. unfold mbind at 1, Flow_bind.
    rewrite bool_decide_false
      by (intros Hn; apply Hn, Hin, elem_of_app; right; left).
    unfold mbind, Flow_bind, emit, lift, log; simpl.
    rewrite Hfail. simpl. by rewrite <-!app_assoc.
  - intros ??. apply Hin, elem_of_app. by left.
Qed.

(** A loop that finds no domain dictionary stops at the first device. *)
Lemma register_coordinators_no_domain te names device rest st :
  deviceName device ∈ names →
  update_data w (new_coordinator te device) = Ret tt →
  hass_data st !! DOMAIN = None →
  register_coordinators w te names (device :: rest) st =
  (Raise (KeyError DOMAIN), log st (device_events te device)).
Proof.
  intros Hin Hupd Hd. simpl. unfold mbind at 1, Flow_bind.
  rewrite bool_decide_false by (by intros Hn).
  unfold mbind, Flow_bind, emit, lift, hass_data_setitem, log; simpl.
  rewrite Hupd, Hd. simpl. by rewrite <-app_assoc.
Qed.

(** What is stored under each id after the loop. *)
Lemma registered_lookup_last te json d id :
  registered te json d !! id = registered_under te json d id.
Proof.
  unfold registered_under.
  induction json as [|device json IH] using rev_ind; [done|].
  rewrite registered_snoc, filter_app.
  destruct (decide (deviceId device = id)) as [Heq|Hne].
  - rewrite filter_cons_True by done. rewrite filter_nil, last_snoc.
    by rewrite Heq, lookup_insert_eq.
  - rewrite filter_cons_False by done. rewrite filter_nil, app_nil_r.
    by rewrite lookup_insert_ne.
Qed.
End LoopRuns.

(** ** What no run of the setup step does *)

Section Keeps.
Context (R : relation FlowState) `{!PreOrder R}.

Lemma keeps_mret {A} (a : A) : keeps R (mret a).
Proof. intros st o st' [= <- <-]. done. Qed.

Lemma keeps_lift {A} (o : outcome A) : keeps R (lift o).
Proof. intros st o' st' [= <- <-]. done. Qed.

Lemma keeps_load_local {A} name (x : option A) : keeps R (load_local name x).
Proof. destruct x; [apply keeps_mret | apply keeps_lift]. Qed.

Lemma keeps_bind {A B} (m : Flow A) (f : A → Flow B) :
  keeps R m → (∀ a, keeps R (f a)) → keeps R (m ≫= f).
Proof.
  intros Hm Hf st o st'. unfold mbind, Flow_bind.
  destruct (m st) as [[a|e] st1] eqn:Hrun.
  - intros Hrest. transitivity st1; [by eapply Hm | by eapply Hf].
  - intros [= <- <-]. by eapply Hm.
Qed.

Lemma keeps_try_except {A} (body : Flow A) handler :
  keeps R body →
  (∀ e h, handler e = Some h → keeps R h) →
  keeps R (try_except body handler).
Proof.
  intros Hbody Hhandler st o st'. unfold try_except.
  destruct (body st) as [[a|e] st1] eqn:Hrun.
  - intros [= <- <-]. by eapply Hbody.
  - destruct (handler e) as [h|] eqn:Hh.
    + intros Hrest. transitivity st1; [by eapply Hbody|].
      by eapply Hhandler.
    + intros [= <- <-]. by eapply Hbody.
Qed.
End Keeps.

Section Frame.
Context `{Const} (w : World).
Import OlarmSensorsConfigFlow.

#[local] Instance only_registers_preorder : PreOrder only_registers.
Proof.
  split.
  - intros st. split; [|split].
    + exists []. by rewrite app_nil_r.
    + done.
    + destruct (hass_data st !! DOMAIN) as [d|] eqn:Hd; [|done].
      by exists d.
  - intros st1 st2 st3 ([evs1 Ht1] & Hk1 & Hd1) ([evs2 Ht2] & Hk2 & Hd2).
    split; [|split].
    + exists (evs1 ++ evs2). by rewrite Ht2, Ht1, app_assoc.
    + intros k Hk. by rewrite Hk2, Hk1.
    + destruct (hass_data st1 !! DOMAIN) as [d1|].
      * destruct Hd1 as (d2 & Hd2' & Hsub1). rewrite Hd2' in Hd2.
        destruct Hd2 as (d3 & Hd3 & Hsub2). exists d3. split; [done|].
        by transitivity (dom d2).
      * by rewrite Hd1 in Hd2.
Qed.

Lemma keeps_emit e : keeps only_registers (emit e).
Proof.
  intros st o st' [= <- <-]. split; [|split]; simpl.
  - by exists [e].
  - done.
  - destruct (hass_data st !! DOMAIN) as [d|] eqn:Hd; [|done]. by exists d.
Qed.

Lemma keeps_hass_data_setitem key c :
  keeps only_registers (hass_data_setitem key c).
Proof.
  intros st o st'. unfold hass_data_setitem.
  destruct (hass_data st !! DOMAIN) as [d|] eqn:Hd; intros [= <- <-].
  - split; [|split]; simpl.
    + exists []. by rewrite app_nil_r.
    + intros k Hk. by rewrite lookup_insert_ne.
    + rewrite Hd, lookup_insert_eq. eexists. split; [done|].
      rewrite dom_insert. set_solver.
  - reflexivity.
Qed.

Lemma keeps_register_coordinators te names json :
  keeps only_registers (register_coordinators w te names json).
Proof.
  induction json as [|device rest IH]; simpl.
  - apply keeps_mret, _.
  - apply keeps_bind; [apply _| |done].
    case_bool_decide; [apply keeps_mret, _|].
    repeat (apply keeps_bind; [apply _| |intros ?]);
      auto using keeps_emit, keeps_lift, keeps_hass_data_setitem.
    apply keeps_lift, _.
Qed.

Lemma keeps_setup_entry api_key scan_interval alarm_code json :
  keeps only_registers (setup_entry w api_key scan_interval alarm_code json).
Proof.
  unfold setup_entry.
  repeat (apply keeps_bind; [apply _| |intros ?]);
    try (apply keeps_lift, _); try (apply keeps_mret, _).
  apply keeps_register_coordinators.
Qed.

Lemma keeps_enumerate api_key errors :
  keeps only_registers (enumerate w api_key errors).
Proof.
  unfold enumerate, call_get_olarm_devices.
  destruct (negb _); [|apply keeps_mret, _].
  apply keeps_try_except; [apply _| |].
  - repeat (apply keeps_bind; [apply _| |intros ?]);
      try (apply keeps_lift, _); try (apply keeps_mret, _).
    apply keeps_emit.
  - intros e h Hh. destruct e; simplify_eq.
    apply keeps_bind; [apply _|apply keeps_emit|intros ?].
    apply keeps_mret, _.
Qed.

Lemma keeps_async_step_user user_input :
  keeps only_registers (async_step_user w user_input).
Proof.
  destruct user_input as [user_input|]; simpl;
    [|apply keeps_mret, _].
  repeat (apply keeps_bind; [apply _| |intros ?]);
    try (apply keeps_lift, _); try (apply keeps_mret, _).
  - destruct (py_eq_str _ _); [apply keeps_mret, _ | apply keeps_lift, _].
  - apply keeps_enumerate.
  - destruct a4 as [json errors].
    apply keeps_bind; [apply _|apply keeps_load_local, _|intros ?].
    case_bool_decide; [apply keeps_mret, _ | apply keeps_setup_entry].
Qed.
End Frame.

(** ** Runs of the setup step on well-formed submissions *)

Section SetupRuns.
Context `{Const} (w : World).
Import OlarmSensorsConfigFlow.

(** A non-empty key and an interval of at least 8 pass the checks. *)
Lemma validate_valid user_input api_key scan_interval alarm_code :
  submitted user_input api_key scan_interval alarm_code →
  api_key ≠ "" → (8 ≤ scan_interval)%Z →
  validate user_input = Ret ∅.
Proof.
  intros (Hk & Hs & _) Hne Hz. rewrite (validate_submitted _ _ _ Hk Hs).
  cbv zeta.
  by rewrite (bool_decide_false (api_key = "")),
    (bool_decide_false (scan_interval = 0)),
    (bool_decide_false (scan_interval < 8)) by (done || lia).
Qed.

(** The tail of the step, with the entry handed to the coordinators. *)
Lemma setup_entry_cons api_key scan_interval alarm_code first rest st :
  setup_entry w api_key scan_interval alarm_code (Some (first :: rest)) st =
  match register_coordinators w
          (temp_entry_for api_key scan_interval alarm_code first rest)
          (deviceName <$> first :: rest) (first :: rest) st with
  | (Ret _, st') =>
      (Ret (async_create_entry "Olarm Sensors"
              (created_entry_data api_key scan_interval alarm_code first rest)),
       st')
  | (Raise e, st') => (Raise e, st')
  end.
Proof.
  unfold setup_entry.
  cbv beta iota delta [mbind Flow_bind lift mret Flow_ret].
  by destruct (register_coordinators _ _ _ _ _) as [[[]|e] st1].
Qed.

(** A valid submission goes on with the discovered devices. *)
Lemma async_step_user_discovered
    user_input api_key scan_interval alarm_code json st :
  submitted user_input api_key scan_interval alarm_code →
  api_key ≠ "" → (8 ≤ scan_interval)%Z →
  discovered w (VStr api_key) = Some json →
  async_step_user w (Some user_input) st =
  setup_entry w (VStr api_key) (VInt scan_interval)
    (stored_alarm_code (VStr alarm_code)) (Some json)
    (after_enumeration (VStr api_key) st).
Proof.
  intros Hsub Hne Hz Hdisc.
  pose proof (validate_valid _ _ _ _ Hsub Hne Hz) as Hv.
  destruct Hsub as (Hk & Hs & Hc).
  rewrite (async_step_user_eq w _ _ _ _ _ Hv Hk Hs Hc). cbv zeta.
  unfold discovered in Hdisc. unfold after_enumeration.
  rewrite (bool_decide_false (∅ ≠ ∅)) by (intros Hx; by apply Hx).
  destruct (py_eq_str (VStr api_key) "mock_api_key" ||
            py_eq_str (VStr api_key) "").
  - by injection Hdisc as <-.
  - destruct (get_olarm_devices w (VStr api_key)) as [[json'|]|e];
      try done. by injection Hdisc as <-.
Qed.

(** A completed loop over selected devices has updated every one of them. *)
Lemma register_coordinators_Ret_updates te names json st st' :
  (∀ device, device ∈ json → deviceName device ∈ names) →
  register_coordinators w te names json st = (Ret tt, st') →
  ∀ device, device ∈ json → update_data w (new_coordinator te device) = Ret tt.
Proof.
  revert st. induction json as [|first rest IH]; intros st Hin Hrun device Hd;
    [by apply elem_of_nil in Hd|].
  simpl in Hrun. unfold mbind at 1, Flow_bind in Hrun.
  rewrite bool_decide_false in Hrun
    by (intros Hn; apply Hn, Hin; left).
  unfold mbind at 1 2 3, Flow_bind, emit, lift in Hrun.
  destruct (update_data w (new_coordinator te first)) as [[]|e] eqn:Hupd;
    [|done].
  unfold hass_data_setitem in Hrun; simpl in Hrun.
  destruct (hass_data st !! DOMAIN); [|done].
  apply elem_of_cons in Hd as [->|Hd]; [done|].
  eapply IH; [|exact Hrun|done]. intros ??. apply Hin. by right.
Qed.

(** What a created entry tells, with the entry handed to the
    coordinators and the final state. *)
Lemma async_step_user_created_state user_input st title data st' :
  async_step_user w (Some user_input) st =
    (Ret (async_create_entry title data), st') →
  ∃ api_key scan_interval code first rest d,
    user_input !! CONF_API_KEY = Some api_key ∧
    user_input !! CONF_SCAN_INTERVAL = Some scan_interval ∧
    user_input !! CONF_ALARM_CODE = Some code ∧
    validate user_input = Ret ∅ ∧
    discovered w api_key = Some (first :: rest) ∧
    hass_data st !! DOMAIN = Some d ∧
    data = created_entry_data api_key scan_interval (stored_alarm_code code)
             first rest ∧
    st' =
      let te := temp_entry_for api_key scan_interval (stored_alarm_code code)
                  first rest in
      {| hass_data := <[DOMAIN := registered te (first :: rest) d]> (hass_data st);
         trace := trace (after_enumeration api_key st) ++
                  loop_events te (first :: rest) |}.
Proof.
  intros Hrun.
  destruct (async_step_user_reads _ _ _ _ _ Hrun)
    as (errors & api_key & scan & code & He & Hk & Hs & Hc).
  rewrite (async_step_user_eq w _ _ _ _ _ He Hk Hs Hc) in Hrun.
  exists api_key, scan, code.
  assert (errors = ∅ ∧ ∃ first rest,
            discovered w api_key = Some (first :: rest) ∧
            setup_entry w api_key scan (stored_alarm_code code)
              (Some (first :: rest)) (after_enumeration api_key st) =
            (Ret (async_create_entry title data), st'))
    as (-> & first & rest & Hdisc & Hsetup).
  { cbv zeta in Hrun. unfold discovered, after_enumeration.
    destruct (py_eq_str api_key "mock_api_key" || py_eq_str api_key "").
    - case_bool_decide as Herr; [done|]. split; [done|].
      destruct (setup_entry_Ret _ _ _ _ _ _ _ _ Hrun)
        as (first & rest & _ & Hjson & _).
      exists first, rest. by rewrite <-Hjson.
    - destruct (get_olarm_devices w api_key) as [[json|]|e];
        [| done | by destruct e].
      case_bool_decide as Herr; [done|]. split; [done|].
      destruct (setup_entry_Ret _ _ _ _ _ _ _ _ Hrun)
        as (first & rest & _ & [= ->] & _).
      by exists first, rest. }
  exists first, rest.
  rewrite setup_entry_cons in Hsetup.
  destruct (register_coordinators _ _ _ _ _) as [[[]|e] st1] eqn:Hloop;
    [|done].
  injection Hsetup as _ <- <-.
  assert (∀ device, device ∈ first :: rest →
            deviceName device ∈ deviceName <$> first :: rest) as Hall
    by (intros device ?; by apply list_elem_of_fmap_2).
  destruct (register_coordinators_domain w _ _ _ _ _ _
              (Hall first ltac:(left)) Hloop) as [d Hd].
  pose proof (register_coordinators_Ret_updates _ _ _ _ _ Hall Hloop) as Hupd.
  rewrite (register_coordinators_success w _ _ _ _ d Hall Hupd Hd) in Hloop.
  injection Hloop as <-. clear Hrun.
  assert (hass_data (after_enumeration api_key st) = hass_data st) as Hsame
    by (unfold after_enumeration; by destruct (_ || _)).
  rewrite Hsame in Hd. exists d. rewrite Hsame. by repeat split.
Qed.
End SetupRuns.

(** ** Further properties of the setup step *)

Section SetupProperties.
Context `{Const} (w : World).
Import OlarmSensorsConfigFlow.

(** The ways the checks can raise. *)
Lemma validate_Raise user_input e :
  validate user_input = Raise e →
  e = TypeError ∨ ∃ k, e = KeyError k ∧ user_input !! k = None.
Proof.
  unfold validate, getitem.
  destruct (user_input !! CONF_API_KEY) as [api_key|] eqn:Hk; simpl;
    [|intros [= <-]; right; eauto].
  destruct (user_input !! CONF_SCAN_INTERVAL) as [scan|] eqn:Hs; simpl;
    [|intros [= <-]; right; eauto].
  destruct (py_not scan); simpl; [done|].
  destruct scan; simpl; try done; intros [= <-]; by left.
Qed.

Lemma seconds_slept_app t1 t2 :
  seconds_slept (t1 ++ t2) = (seconds_slept t1 + seconds_slept t2)%Z.
Proof.
  unfold seconds_slept. induction t1 as [|e t1 IH]; simpl; [done|].
  rewrite IH. destruct e; lia.
Qed.

Lemma updates_app t1 t2 : updates (t1 ++ t2) = (updates t1 + updates t2)%nat.
Proof. unfold updates. by rewrite List.filter_app, length_app. Qed.

(** A completed loop sleeps two seconds and updates once per device, and
    enumerates nothing. *)
Lemma loop_events_count te json :
  seconds_slept (loop_events te json) = (2 * Z.of_nat (length json))%Z ∧
  updates (loop_events te json) = length json ∧
  enumeration_calls (loop_events te json) = 0%nat.
Proof.
  induction json as [|device json (IHs & IHu & IHe)]; [done|].
  rewrite loop_events_cons, seconds_slept_app, updates_app,
    enumeration_calls_app, IHs, IHu, IHe.
  simpl length. repeat split; [|done..].
  unfold device_events, seconds_slept; simpl. lia.
Qed.

(** The entry handed to the coordinators has the data of the created entry
    but for the device list. *)
Lemma temp_entry_data api_key scan_interval alarm_code first rest :
  distinct_keys →
  entry_data (temp_entry_for api_key scan_interval alarm_code first rest) =
  delete OLARM_DEVICES
    (created_entry_data api_key scan_interval alarm_code first rest).
Proof.
  intros (Hk1 & Hk2 & Hk3 & Hk4 & Hk5 & Hk6 & Hk7)%distinct_keys_entry.
  split_keys. unfold temp_entry_for, created_entry_data, dict; simpl.
  rewrite !(delete_insert_ne _ OLARM_DEVICES) by congruence.
  rewrite delete_insert_eq.
  rewrite delete_id; [done|].
  rewrite !lookup_insert_ne by congruence. apply lookup_empty.
Qed.

(** X1: a submission that lacks one of the three fields raises before any
    effect: the state is returned as it was (no remote call, no log entry,
    no coordinator), and the exception is the [KeyError] of a missing field
    (or the [TypeError] of an interval that cannot be compared). *)
Theorem setup_missing_field_raises_without_effect user_input st :
  user_input !! CONF_API_KEY = None ∨
  user_input !! CONF_SCAN_INTERVAL = None ∨
  user_input !! CONF_ALARM_CODE = None →
  ∃ e,
    async_step_user w (Some user_input) st = (Raise e, st) ∧
    (e = TypeError ∨ ∃ k, e = KeyError k ∧ user_input !! k = None).
Proof.
  intros Hmissing.
  destruct (validate user_input) as [errors|e] eqn:Hv.
  - assert (is_Some (user_input !! CONF_API_KEY) ∧
            is_Some (user_input !! CONF_SCAN_INTERVAL)) as [[k Hk] [s Hs]].
    { unfold validate, getitem in Hv.
      destruct (user_input !! CONF_API_KEY); [|done]. split; [eauto|].
      simpl in Hv. by destruct (user_input !! CONF_SCAN_INTERVAL). }
    destruct Hmissing as [Hm|[Hm|Hm]]; [congruence..|].
    exists (KeyError CONF_ALARM_CODE). split; [|right; eauto].
    unfold async_step_user, mbind, Flow_bind, lift, getitem.
    by rewrite Hv, Hk, Hs, Hm.
  - exists e. split; [by apply async_step_user_raise_early|].
    by apply validate_Raise.
Qed.

(** X2: a scan interval that is truthy but not an integer makes the
    comparison with 8 raise [TypeError], again before any effect. *)
Theorem setup_non_integer_interval_raises_type_error
    user_input scan_interval st :
  is_Some (user_input !! CONF_API_KEY) →
  user_input !! CONF_SCAN_INTERVAL = Some scan_interval →
  py_not scan_interval = false →
  (∀ z, scan_interval ≠ VInt z) →
  async_step_user w (Some user_input) st = (Raise TypeError, st).
Proof.
  intros [k Hk] Hs Hnot Hint. apply async_step_user_raise_early.
  unfold validate, getitem. rewrite Hk, Hs; simpl. rewrite Hnot.
  destruct scan_interval; try done. by destruct (Hint z).
Qed.

(** X3: when the checks pass and the enumeration returns [None], the step
    shows the setup form with the single error "Invalid credentials!" under
    the authentication key; nothing but the remote call is logged. *)
Theorem setup_unknown_key_shows_authentication_error
    user_input api_key scan_interval alarm_code st :
  submitted user_input api_key scan_interval alarm_code →
  api_key ≠ "" → api_key ≠ "mock_api_key" → (8 ≤ scan_interval)%Z →
  get_olarm_devices w (VStr api_key) = Ret None →
  async_step_user w (Some user_input) st =
    (Ret (async_show_form "user" _get_schema
            (Some {[ AUTHENTICATION_ERROR := "Invalid credentials!" ]})),
     log st [ EvGetOlarmDevices (VStr api_key) ]).
Proof.
  intros Hsub Hne Hnm Hz Hget.
  pose proof (validate_valid _ _ _ _ Hsub Hne Hz) as Hv.
  destruct Hsub as (Hk & Hs & Hc).
  rewrite (async_step_user_eq w _ _ _ _ _ Hv Hk Hs Hc). cbv zeta. simpl.
  rewrite !bool_decide_false by done. simpl. by rewrite Hget.
Qed.

(** X4: an exception of the enumeration other than [APIForbiddenError] is
    not caught: it leaves the step as it is, after the one remote call, and
    [hass.data] is untouched. *)
Theorem setup_other_exception_propagates
    user_input api_key scan_interval alarm_code st e :
  submitted user_input api_key scan_interval alarm_code →
  api_key ≠ "" → api_key ≠ "mock_api_key" →
  get_olarm_devices w (VStr api_key) = Raise e →
  e ≠ APIForbiddenError →
  async_step_user w (Some user_input) st =
    (Raise e, log st [ EvGetOlarmDevices (VStr api_key) ]).
Proof.
  intros (Hk & Hs & Hc) Hne Hnm Hget He.
  rewrite (async_step_user_eq w _ _ _ _ _
             (validate_submitted _ _ _ Hk Hs) Hk Hs Hc).
  cbv zeta. simpl. rewrite !bool_decide_false by done. simpl.
  rewrite Hget. by destruct e.
Qed.

(** X5: with the empty key or the mock key the step never calls the
    service, whatever its outcome. *)
Theorem setup_no_enumeration_for_mock_or_empty_key
    user_input api_key scan_interval alarm_code st o st' :
  submitted user_input api_key scan_interval alarm_code →
  api_key = "" ∨ api_key = "mock_api_key" →
  async_step_user w (Some user_input) st = (o, st') →
  ∃ evs, trace st' = trace st ++ evs ∧ enumeration_calls evs = 0%nat.
Proof.
  intros (Hk & Hs & Hc) Hkey Hrun.
  rewrite (async_step_user_eq w _ _ _ _ _
             (validate_submitted _ _ _ Hk Hs) Hk Hs Hc) in Hrun.
  cbv zeta in Hrun.
  assert (py_eq_str (VStr api_key) "mock_api_key" ||
          py_eq_str (VStr api_key) "" = true) as Hmock.
  { simpl. destruct Hkey as [->| ->]; by vm_compute. }
  rewrite Hmock in Hrun. case_bool_decide.
  - injection Hrun as <- <-. exists []. by rewrite app_nil_r.
  - by eapply setup_entry_trace.
Qed.

(** X6: the step creates an entry only for a non-empty API key and a scan
    interval of at least 8. *)
Theorem setup_creates_only_for_valid_fields
    user_input api_key scan_interval alarm_code st title data st' :
  submitted user_input api_key scan_interval alarm_code →
  async_step_user w (Some user_input) st =
    (Ret (async_create_entry title data), st') →
  api_key ≠ "" ∧ (8 ≤ scan_interval)%Z.
Proof.
  intros (Hk & Hs & Hc) Hrun.
  apply async_step_user_created in Hrun
    as (? & ? & ? & ? & ? & ? & Hv & _).
  pose proof (validate_submitted_errors _ _ _ _ Hk Hs Hv) as Herr.
  split.
  - intros ->. by apply Herr; [left|].
  - destruct (decide (8 ≤ scan_interval)%Z); [done|].
    exfalso. apply Herr; [right; right; lia|done].
Qed.

(** X7: the success path.  When the checks pass, at least one device is
    discovered, every coordinator update returns and [hass.data] has the
    domain dictionary, the step creates the entry "Olarm Sensors" with the
    collected data, registers a coordinator per device and logs, after the
    enumeration, one sleep and one update per device. *)
Theorem setup_succeeds
    user_input api_key scan_interval alarm_code first rest d st :
  let te := temp_entry_for (VStr api_key) (VInt scan_interval)
              (stored_alarm_code (VStr alarm_code)) first rest in
  submitted user_input api_key scan_interval alarm_code →
  api_key ≠ "" → (8 ≤ scan_interval)%Z →
  discovered w (VStr api_key) = Some (first :: rest) →
  (∀ device, device ∈ first :: rest →
     update_data w (new_coordinator te device) = Ret tt) →
  hass_data st !! DOMAIN = Some d →
  async_step_user w (Some user_input) st =
    (Ret (async_create_entry "Olarm Sensors"
            (created_entry_data (VStr api_key) (VInt scan_interval)
               (stored_alarm_code (VStr alarm_code)) first rest)),
     {| hass_data := <[DOMAIN := registered te (first :: rest) d]> (hass_data st);
        trace := trace (after_enumeration (VStr api_key) st) ++
                 loop_events te (first :: rest) |}).
Proof.
  intros te Hsub Hne Hz Hdisc Hupd Hd.
  rewrite (async_step_user_discovered w _ _ _ _ _ _ Hsub Hne Hz Hdisc).
  rewrite setup_entry_cons.
  assert (hass_data (after_enumeration (VStr api_key) st) = hass_data st)
    as Hsame by (unfold after_enumeration; by destruct (_ || _)).
  rewrite (register_coordinators_success w _ _ _ _ d); [by rewrite Hsame| | |].
  - intros device ?. by apply list_elem_of_fmap_2.
  - done.
  - by rewrite Hsame.
Qed.

(** X8: a run that creates an entry has, after the enumeration, slept two
    seconds and updated one coordinator per discovered device, and made no
    further enumeration. *)
Theorem setup_sleeps_two_seconds_per_device user_input st title data st' :
  async_step_user w (Some user_input) st =
    (Ret (async_create_entry title data), st') →
  ∃ api_key json evs,
    user_input !! CONF_API_KEY = Some api_key ∧
    discovered w api_key = Some json ∧
    trace st' = trace (after_enumeration api_key st) ++ evs ∧
    seconds_slept evs = (2 * Z.of_nat (length json))%Z ∧
    updates evs = length json ∧
    enumeration_calls evs = 0%nat.
Proof.
  intros Hrun.
  apply async_step_user_created_state in Hrun
    as (api_key & scan & code & first & rest & d &
        Hk & _ & _ & _ & Hdisc & _ & _ & ->).
  eexists api_key, (first :: rest), _.
  repeat (split; [done|]). apply loop_events_count.
Qed.

(** X9: no rollback.  When the update of one device raises, the step raises
    that exception and creates no entry, but the coordinators of the
    devices before it stay registered. *)
Theorem setup_update_failure_keeps_earlier_coordinators
    user_input api_key scan_interval alarm_code first rest
    before device after d st e :
  let te := temp_entry_for (VStr api_key) (VInt scan_interval)
              (stored_alarm_code (VStr alarm_code)) first rest in
  submitted user_input api_key scan_interval alarm_code →
  api_key ≠ "" → (8 ≤ scan_interval)%Z →
  discovered w (VStr api_key) = Some (first :: rest) →
  first :: rest = before ++ device :: after →
  (∀ device', device' ∈ before →
     update_data w (new_coordinator te device') = Ret tt) →
  update_data w (new_coordinator te device) = Raise e →
  hass_data st !! DOMAIN = Some d →
  async_step_user w (Some user_input) st =
    (Raise e,
     {| hass_data := <[DOMAIN := registered te before d]> (hass_data st);
        trace := trace (after_enumeration (VStr api_key) st) ++
                 loop_events te before ++ device_events te device |}).
Proof.
  intros te Hsub Hne Hz Hdisc Hjson Hupd Hfail Hd.
  rewrite (async_step_user_discovered w _ _ _ _ _ _ Hsub Hne Hz Hdisc).
  rewrite setup_entry_cons. fold te.
  assert (hass_data (after_enumeration (VStr api_key) st) = hass_data st)
    as Hsame by (unfold after_enumeration; by destruct (_ || _)).
  rewrite Hjson at 2.
  rewrite (register_coordinators_failure w _ _ _ _ _ _ d e);
    [by rewrite Hsame| |done|done|by rewrite Hsame].
  intros device' Hin. apply list_elem_of_fmap_2. rewrite Hjson.
  apply elem_of_app in Hin as [?|?%list_elem_of_singleton];
    apply elem_of_app; [by left|right; subst; left].
Qed.

(** X10: when [hass.data] has no dictionary for the domain, the step
    raises [KeyError] at the first registration, after the sleep and the
    update of the first coordinator; [hass.data] is left as it was. *)
Theorem setup_without_domain_dictionary_raises_key_error
    user_input api_key scan_interval alarm_code first rest st :
  let te := temp_entry_for (VStr api_key) (VInt scan_interval)
              (stored_alarm_code (VStr alarm_code)) first rest in
  submitted user_input api_key scan_interval alarm_code →
  api_key ≠ "" → (8 ≤ scan_interval)%Z →
  discovered w (VStr api_key) = Some (first :: rest) →
  update_data w (new_coordinator te first) = Ret tt →
  hass_data st !! DOMAIN = None →
  async_step_user w (Some user_input) st =
    (Raise (KeyError DOMAIN),
     log (after_enumeration (VStr api_key) st) (device_events te first)).
Proof.
  intros te Hsub Hne Hz Hdisc Hupd Hd.
  rewrite (async_step_user_discovered w _ _ _ _ _ _ Hsub Hne Hz Hdisc).
  rewrite setup_entry_cons. fold te.
  rewrite register_coordinators_no_domain; [done| |done|].
  - apply list_elem_of_fmap_2. left.
  - unfold after_enumeration. by destruct (_ || _).
Qed.
End SetupProperties.

(** ** The registered coordinators *)

Section Registration.
Context `{Const} (w : World).
Import OlarmSensorsConfigFlow.

(** The last device with a given id, for an id that occurs. *)
Lemma last_with_id (json : list Device) device :
  device ∈ json →
  ∃ device',
    last (filter (λ x, deviceId x = deviceId device) json) = Some device' ∧
    device' ∈ json ∧ deviceId device' = deviceId device.
Proof.
  intros Hin.
  assert (device ∈ filter (λ x, deviceId x = deviceId device) json) as Hf
    by (by apply list_elem_of_filter).
  destruct (last (filter (λ x, deviceId x = deviceId device) json))
    as [device'|] eqn:Hlast.
  - exists device'. split; [done|].
    apply last_Some_elem_of in Hlast.
    by apply list_elem_of_filter in Hlast as [? ?].
  - apply last_None in Hlast. rewrite Hlast in Hf. by apply elem_of_nil in Hf.
Qed.

(** X11: after a run that creates an entry, the domain dictionary holds
    under each device id the coordinator built from the last discovered
    device with that id (its id, name and alarm type), and under every
    other id what it held before. *)
Theorem setup_registers_last_device_per_id user_input st title data st' :
  async_step_user w (Some user_input) st =
    (Ret (async_create_entry title data), st') →
  ∃ api_key scan_interval code first rest d d',
    user_input !! CONF_API_KEY = Some api_key ∧
    user_input !! CONF_SCAN_INTERVAL = Some scan_interval ∧
    user_input !! CONF_ALARM_CODE = Some code ∧
    discovered w api_key = Some (first :: rest) ∧
    hass_data st !! DOMAIN = Some d ∧
    hass_data st' !! DOMAIN = Some d' ∧
    ∀ id,
      d' !! id =
      registered_under
        (temp_entry_for api_key scan_interval (stored_alarm_code code)
           first rest)
        (first :: rest) d id.
Proof.
  intros Hrun.
  apply async_step_user_created_state in Hrun
    as (api_key & scan & code & first & rest & d &
        Hk & Hs & Hc & _ & Hdisc & Hd & _ & ->).
  eexists api_key, scan, code, first, rest, d, _.
  repeat (split; [done|]). cbv zeta; cbn [hass_data].
  split; [by rewrite lookup_insert_eq|].
  intros id. apply registered_lookup_last.
Qed.

(** X12: every coordinator registered by a run that creates an entry holds
    a config entry of this domain whose data is the data of the created
    entry without OLARM_DEVICES. *)
Theorem setup_coordinators_hold_entry_without_device_list
    user_input st title data st' :
  distinct_keys →
  async_step_user w (Some user_input) st =
    (Ret (async_create_entry title data), st') →
  ∃ api_key json d',
    user_input !! CONF_API_KEY = Some api_key ∧
    discovered w api_key = Some json ∧
    hass_data st' !! DOMAIN = Some d' ∧
    ∀ device, device ∈ json →
      ∃ c, d' !! deviceId device = Some c ∧
           entry_domain (coordinator_entry c) = DOMAIN ∧
           entry_data (coordinator_entry c) = delete OLARM_DEVICES data ∧
           data !! OLARM_DEVICES = Some (VDevices json).
Proof.
  intros Hkeys Hrun.
  apply async_step_user_created_state in Hrun
    as (api_key & scan & code & first & rest & d &
        Hk & Hs & Hc & _ & Hdisc & Hd & -> & ->).
  eexists api_key, (first :: rest), _.
  repeat (split; [done|]). cbv zeta; cbn [hass_data].
  split; [by rewrite lookup_insert_eq|].
  intros device Hin. rewrite registered_lookup_last. unfold registered_under.
  destruct (last_with_id _ _ Hin) as (device' & -> & _ & _).
  eexists. split; [done|]. split; [done|]. split.
  - by apply temp_entry_data.
  - destruct Hkeys as [Hnd _].
    apply dict_lookup_Some; [exact Hnd | in_list].
Qed.

(** X13: whatever is submitted and however the step ends, it only adds to
    the log, keeps the dictionaries of all other domains in [hass.data],
    and neither creates nor removes the dictionary of its own domain nor
    any id in it. *)
Theorem setup_only_registers user_input st :
  only_registers st (async_step_user w user_input st).2.
Proof.
  destruct (async_step_user w user_input st) as [o st'] eqn:Hrun.
  by eapply keeps_async_step_user.
Qed.
End Registration.

(** ** Further properties of the options step *)

Section OptionsProperties.
Context `{Const} `{Builtins}.
Import OlarmOptionsFlow.

(** The options step on a submission, field by field. *)
Lemma async_step_init_eq config_entry user_input code names amount :
  user_input !! CONF_ALARM_CODE = Some code →
  entry_data config_entry !! OLARM_DEVICE_NAMES = Some names →
  py_len names = Ret amount →
  async_step_init config_entry (Some user_input) =
  scan_interval ← getitem user_input CONF_SCAN_INTERVAL;
  api_key ← getitem user_input CONF_API_KEY;
  devices ← getitem user_input CONF_OLARM_DEVICES;
  mret (async_create_entry "Olarm Sensors"
          (<[CONF_OLARM_DEVICES := devices]> (
           <[CONF_API_KEY := api_key]> (
           <[CONF_SCAN_INTERVAL := scan_interval]> (
           <[OLARM_DEVICE_AMOUNT := VInt amount]> (
           <[CONF_ALARM_CODE := stored_alarm_code code]> (
             entry_data config_entry))))))).
Proof.
  intros Hc Hn Hlen. unfold async_step_init, stored_alarm_code, getitem.
  rewrite Hc; simpl.
  destruct (py_eq_str code "1234567890"); simpl;
    rewrite ?Hc, Hn; simpl; by rewrite Hlen.
Qed.

(** X14: the device selection is an optional field without default, and
    the step reads it unconditionally: a submission without
    CONF_OLARM_DEVICES raises [KeyError] and no entry is created. *)
Theorem options_without_selection_raises_key_error
    config_entry user_input names amount :
  is_Some (user_input !! CONF_ALARM_CODE) →
  is_Some (user_input !! CONF_SCAN_INTERVAL) →
  is_Some (user_input !! CONF_API_KEY) →
  entry_data config_entry !! OLARM_DEVICE_NAMES = Some names →
  py_len names = Ret amount →
  user_input !! CONF_OLARM_DEVICES = None →
  async_step_init config_entry (Some user_input) =
    Raise (KeyError CONF_OLARM_DEVICES).
Proof.
  intros [code Hc] [scan Hs] [api_key Hk] Hn Hlen Hd.
  rewrite (async_step_init_eq _ _ _ _ _ Hc Hn Hlen). unfold getitem.
  by rewrite Hs, Hk, Hd.
Qed.

(** X15: the options step checks none of the submitted values: whenever the
    four fields are present (and the entry has its names), it creates the
    entry and stores the submitted API key and scan interval as they are,
    an empty key or an interval below 8 included. *)
Theorem options_stores_submitted_values_unchecked
    config_entry user_input api_key scan_interval code devices names amount :
  distinct_keys →
  user_input !! CONF_API_KEY = Some api_key →
  user_input !! CONF_SCAN_INTERVAL = Some scan_interval →
  user_input !! CONF_ALARM_CODE = Some code →
  user_input !! CONF_OLARM_DEVICES = Some devices →
  entry_data config_entry !! OLARM_DEVICE_NAMES = Some names →
  py_len names = Ret amount →
  ∃ new,
    async_step_init config_entry (Some user_input) =
      Ret (async_create_entry "Olarm Sensors" new) ∧
    new !! CONF_API_KEY = Some api_key ∧
    new !! CONF_SCAN_INTERVAL = Some scan_interval ∧
    new !! CONF_OLARM_DEVICES = Some devices.
Proof.
  intros (Hk1 & Hk2 & Hk3 & Hk4 & Hk5 & Hk6 & Hk7)%distinct_keys_entry
    Hk Hs Hc Hd Hn Hlen.
  rewrite (async_step_init_eq _ _ _ _ _ Hc Hn Hlen). unfold getitem.
  rewrite Hs, Hk, Hd. simpl. eexists. split; [done|].
  repeat split; by lookup_keys.
Qed.

(** Two stacks of the five assignments agree when the outer one is the
    same: the inner one is overwritten. *)
Lemma edit_overrides (m : gmap string value) c1 a1 s1 k1 d1 c2 a2 s2 k2 d2 :
  <[CONF_OLARM_DEVICES := d2]> (<[CONF_API_KEY := k2]> (
  <[CONF_SCAN_INTERVAL := s2]> (<[OLARM_DEVICE_AMOUNT := a2]> (
  <[CONF_ALARM_CODE := c2]> (
    <[CONF_OLARM_DEVICES := d1]> (<[CONF_API_KEY := k1]> (
    <[CONF_SCAN_INTERVAL := s1]> (<[OLARM_DEVICE_AMOUNT := a1]> (
    <[CONF_ALARM_CODE := c1]> m))))))))) =
  <[CONF_OLARM_DEVICES := d2]> (<[CONF_API_KEY := k2]> (
  <[CONF_SCAN_INTERVAL := s2]> (<[OLARM_DEVICE_AMOUNT := a2]> (
  <[CONF_ALARM_CODE := c2]> m)))).
Proof.
  apply map_eq. intros i.
  destruct (decide (CONF_OLARM_DEVICES = i)) as [<-|];
    [by rewrite !lookup_insert_eq|rewrite !(lookup_insert_ne _ CONF_OLARM_DEVICES) by done].
  destruct (decide (CONF_API_KEY = i)) as [<-|];
    [by rewrite !lookup_insert_eq|rewrite !(lookup_insert_ne _ CONF_API_KEY) by done].
  destruct (decide (CONF_SCAN_INTERVAL = i)) as [<-|];
    [by rewrite !lookup_insert_eq|rewrite !(lookup_insert_ne _ CONF_SCAN_INTERVAL) by done].
  destruct (decide (OLARM_DEVICE_AMOUNT = i)) as [<-|];
    [by rewrite !lookup_insert_eq|rewrite !(lookup_insert_ne _ OLARM_DEVICE_AMOUNT) by done].
  destruct (decide (CONF_ALARM_CODE = i)) as [<-|];
    [by rewrite !lookup_insert_eq|].
  rewrite !(lookup_insert_ne _ CONF_ALARM_CODE) by done.
  rewrite !(lookup_insert_ne _ CONF_OLARM_DEVICES) by done.
  rewrite !(lookup_insert_ne _ CONF_API_KEY) by done.
  rewrite !(lookup_insert_ne _ CONF_SCAN_INTERVAL) by done.
  rewrite !(lookup_insert_ne _ OLARM_DEVICE_AMOUNT) by done.
  by rewrite !(lookup_insert_ne _ CONF_ALARM_CODE) by done.
Qed.

(** X16: a later edit overrides an earlier one.  On the entry produced by
    one options submission, a second submission gives exactly what it gives
    on the original entry (an exception included); in particular the same
    submission twice gives the same entry data as once. *)
Theorem options_later_edit_overrides
    config_entry edited user_input1 user_input2 title new :
  distinct_keys →
  async_step_init config_entry (Some user_input1) =
    Ret (async_create_entry title new) →
  entry_data edited = new →
  async_step_init edited (Some user_input2) =
    async_step_init config_entry (Some user_input2) ∧
  async_step_init edited (Some user_input1) =
    Ret (async_create_entry title new).
Proof.
  intros Hkeys Hrun Hedited.
  assert (∀ user_input,
            async_step_init edited (Some user_input) =
            async_step_init config_entry (Some user_input)) as Hsame.
  { intros user_input.
    destruct (async_step_init_amount _ _ _ _ Hkeys Hrun)
      as (names & n & Hold & Hlen & Hnames & _).
    apply async_step_init_created in Hrun
      as (code1 & names1 & amount1 & scan1 & api_key1 & devices1 &
          _ & _ & _ & _ & _ & _ & _ & Hnew).
    rewrite <-Hedited in Hnames.
    destruct (user_input !! CONF_ALARM_CODE) as [code|] eqn:Hc.
    - rewrite (async_step_init_eq edited _ _ _ _ Hc Hnames Hlen),
        (async_step_init_eq config_entry _ _ _ _ Hc Hold Hlen).
      unfold getitem.
      destruct (user_input !! CONF_SCAN_INTERVAL); simpl; [|done].
      destruct (user_input !! CONF_API_KEY); simpl; [|done].
      destruct (user_input !! CONF_OLARM_DEVICES); simpl; [|done].
      rewrite Hedited, Hnew. by rewrite edit_overrides.
    - unfold async_step_init, getitem. by rewrite Hc. }
  split; [apply Hsame|]. by rewrite Hsame.
Qed.
End OptionsProperties.

(** ** The options form and the life of the record *)

Section Wizard.
Context `{Const} `{Builtins}.
Import OlarmSensorsConfigFlow OlarmOptionsFlow.

(** The defaults of the options form, for an entry whose interval is an
    integer. *)
Lemma options_schema_defaults config_entry api_key scan_interval stored names :
  distinct_keys →
  entry_data config_entry !! CONF_API_KEY = Some api_key →
  entry_data config_entry !! CONF_SCAN_INTERVAL = Some (VInt scan_interval) →
  entry_data config_entry !! CONF_ALARM_CODE = Some stored →
  entry_data config_entry !! OLARM_DEVICE_NAMES = Some names →
  ∃ schema,
    OlarmOptionsFlow._get_schema config_entry = Ret schema ∧
    schema_default schema CONF_API_KEY = Some api_key ∧
    schema_default schema CONF_SCAN_INTERVAL = Some (VInt scan_interval) ∧
    schema_default schema CONF_ALARM_CODE = Some (displayed_alarm_code stored) ∧
    schema_default schema CONF_OLARM_DEVICES = None.
Proof.
  intros (Hk1 & Hk2 & Hk3 & Hk4 & Hk5 & Hk6 & Hk7)%distinct_keys_entry
    Hk Hs Hc Hn.
  split_keys.
  unfold OlarmOptionsFlow._get_schema, getitem. rewrite Hc; simpl.
  destruct stored; simpl; rewrite ?Hc; simpl; rewrite Hk, Hs; simpl;
    rewrite Hn; simpl;
    (eexists; split; [done|]; simpl;
     repeat split;
       repeat first [ rewrite bool_decide_true by done
                    | rewrite bool_decide_false by congruence ]; done).
Qed.

(** X17: saving the options form unchanged changes nothing.  For an entry
    whose stored values have the shape the steps give them, the form
    displays the stored API key, scan interval and alarm code; submitting
    these defaults together with the stored device selection produces
    exactly the existing entry data. *)
Theorem options_saving_the_defaults_is_identity
    config_entry api_key scan_interval code selection :
  distinct_keys →
  entry_data config_entry !! CONF_API_KEY = Some api_key →
  entry_data config_entry !! CONF_SCAN_INTERVAL = Some (VInt scan_interval) →
  entry_data config_entry !! CONF_ALARM_CODE =
    Some (stored_alarm_code (VStr code)) →
  entry_data config_entry !! CONF_OLARM_DEVICES = Some selection →
  amount_matches_names (entry_data config_entry) →
  ∃ schema,
    async_step_init config_entry None =
      Ret (async_show_form "init" schema None) ∧
    schema_default schema CONF_API_KEY = Some api_key ∧
    schema_default schema CONF_SCAN_INTERVAL = Some (VInt scan_interval) ∧
    schema_default schema CONF_ALARM_CODE =
      Some (displayed_alarm_code (stored_alarm_code (VStr code))) ∧
    ∀ user_input,
      user_input !! CONF_API_KEY = schema_default schema CONF_API_KEY →
      user_input !! CONF_SCAN_INTERVAL =
        schema_default schema CONF_SCAN_INTERVAL →
      user_input !! CONF_ALARM_CODE = schema_default schema CONF_ALARM_CODE →
      user_input !! CONF_OLARM_DEVICES = Some selection →
      async_step_init config_entry (Some user_input) =
        Ret (async_create_entry "Olarm Sensors" (entry_data config_entry)).
Proof.
  intros Hkeys Hk Hs Hc Hsel (names & n & Hn & Hlen & Ha).
  destruct (options_schema_defaults _ _ _ _ _ Hkeys Hk Hs Hc Hn)
    as (schema & Hschema & Dk & Ds & Dc & _).
  exists schema. split; [|split; [done|split; [done|split; [done|]]]].
  { unfold async_step_init. by rewrite Hschema. }
  intros user_input Uk Us Uc Ud. rewrite Dk in Uk. rewrite Ds in Us.
  rewrite Dc in Uc.
  rewrite (async_step_init_eq _ _ _ _ _ Uc Hn Hlen). unfold getitem.
  rewrite Us, Uk, Ud. simpl. rewrite stored_alarm_code_displayed.
  do 2 f_equal.
  rewrite (insert_id _ CONF_ALARM_CODE) by done.
  rewrite (insert_id _ OLARM_DEVICE_AMOUNT) by done.
  rewrite (insert_id _ CONF_SCAN_INTERVAL) by done.
  rewrite (insert_id _ CONF_API_KEY) by done.
  by rewrite insert_id.
Qed.

(** X18: the discovery part of the record is fixed at setup.  Every entry
    data the wizard can arrive at, through a setup run that discovered the
    devices [json] and any number of options submissions, still holds the
    firmware of the first of these devices, the names of all of them, the
    devices themselves and their number; and it can always be edited again:
    an options submission with its four fields creates an entry. *)
Theorem wizard_keeps_the_discovered_devices json data :
  distinct_keys →
  wizard_data json data →
  (∃ first rest,
     json = first :: rest ∧
     data !! CONF_DEVICE_FIRMWARE = Some (VStr (deviceFirmware first))) ∧
  data !! OLARM_DEVICE_NAMES = Some (VList (deviceName <$> json)) ∧
  data !! OLARM_DEVICES = Some (VDevices json) ∧
  data !! OLARM_DEVICE_AMOUNT = Some (VInt (Z.of_nat (length json))) ∧
  (∀ config_entry user_input,
     entry_data config_entry = data →
     is_Some (user_input !! CONF_API_KEY) →
     is_Some (user_input !! CONF_SCAN_INTERVAL) →
     is_Some (user_input !! CONF_ALARM_CODE) →
     is_Some (user_input !! CONF_OLARM_DEVICES) →
     ∃ new,
       async_step_init config_entry (Some user_input) =
         Ret (async_create_entry "Olarm Sensors" new)).
Proof.
  intros Hkeys Hwizard.
  assert ((∃ first rest,
             json = first :: rest ∧
             data !! CONF_DEVICE_FIRMWARE = Some (VStr (deviceFirmware first))) ∧
          data !! OLARM_DEVICE_NAMES = Some (VList (deviceName <$> json)) ∧
          data !! OLARM_DEVICES = Some (VDevices json) ∧
          data !! OLARM_DEVICE_AMOUNT = Some (VInt (Z.of_nat (length json))))
    as (Hf & Hn & Hd & Ha).
  { induction Hwizard as [w ui st title data st' api_key json Hkey Hdisc Hrun
                         |json e ui title new _ IH Hrun].
    - destruct Hkeys as [Hnd _].
      apply async_step_user_created in Hrun
        as (api_key' & scan & code & first & rest & te &
            _ & Hkey' & _ & _ & Hdisc' & _ & _ & ->).
      rewrite Hkey in Hkey'. injection Hkey' as <-.
      rewrite Hdisc in Hdisc'. injection Hdisc' as ->.
      split; [exists first, rest; split; [done|]|repeat split];
        apply dict_lookup_Some; (exact Hnd || in_list).
    - destruct IH as ((first & rest & Hjson & Hf) & Hn & Hd & Ha).
      apply distinct_keys_entry in Hkeys
        as (Hk1 & Hk2 & Hk3 & Hk4 & Hk5 & Hk6 & Hk7).
      apply async_step_init_created in Hrun
        as (code & names & amount & scan & api_key & devices &
            Hc & Hn' & Hlen & Hs & Hk & Hdev & -> & ->).
      rewrite Hn in Hn'. injection Hn' as <-.
      simpl in Hlen. rewrite length_fmap in Hlen. apply Ret_inj in Hlen as <-.
      split; [exists first, rest; split; [done|]|repeat split];
        by lookup_keys. }
  repeat (split; [done|]).
  intros config_entry user_input <- [api_key Hk] [scan Hs] [code Hc]
    [devices Hdev].
  eexists. apply async_step_init_created.
  eexists code, _, _, scan, api_key, devices.
  repeat split; first [done | exact Hn].
Qed.
End Wizard.

(** ** The further properties at sample inputs *)

Lemma setup_missing_field_raises_without_effect_witness :
  ∃ e,
    OlarmSensorsConfigFlow.async_step_user (H := sample_const)
      (world_returning None) (Some sample_incomplete_submission)
      (fresh_state (H := sample_const)) =
      (Raise e, fresh_state (H := sample_const)) ∧
    (e = TypeError ∨
     ∃ k, e = KeyError k ∧ sample_incomplete_submission !! k = None).
Proof.
  apply (setup_missing_field_raises_without_effect (H := sample_const)).
  right; right. vm_compute. reflexivity.
Defined.

Lemma setup_non_integer_interval_raises_type_error_witness :
  OlarmSensorsConfigFlow.async_step_user (H := sample_const)
    (world_returning None) (Some sample_text_interval_submission)
    (fresh_state (H := sample_const)) =
  (Raise TypeError, fresh_state (H := sample_const)).
Proof.
  apply (setup_non_integer_interval_raises_type_error (H := sample_const)
           _ _ (VStr "30")).
  - vm_compute. eauto.
  - vm_compute. reflexivity.
  - vm_compute. reflexivity.
  - discriminate.
Defined.

Lemma setup_unknown_key_shows_authentication_error_witness :
  OlarmSensorsConfigFlow.async_step_user (H := sample_const)
    (world_returning None)
    (Some (submission (H := sample_const) "real_key" 30 "1234567890"))
    (fresh_state (H := sample_const)) =
  (Ret (async_show_form "user"
          (OlarmSensorsConfigFlow._get_schema (H := sample_const))
          (Some {[ "auth_error" := "Invalid credentials!" ]})),
   log (fresh_state (H := sample_const))
     [ EvGetOlarmDevices (VStr "real_key") ]).
Proof.
  apply (setup_unknown_key_shows_authentication_error (H := sample_const)
           _ _ "real_key" 30 "1234567890").
  - repeat split; vm_compute; reflexivity.
  - discriminate.
  - discriminate.
  - lia.
  - reflexivity.
Defined.

Lemma setup_other_exception_propagates_witness :
  sample_unreachable_run =
  (Raise (ExternalError "cannot connect"),
   log (fresh_state (H := sample_const))
     [ EvGetOlarmDevices (VStr "real_key") ]).
Proof.
  apply (setup_other_exception_propagates (H := sample_const)
           _ _ "real_key" 5 "1234567890").
  - repeat split; vm_compute; reflexivity.
  - discriminate.
  - discriminate.
  - reflexivity.
  - discriminate.
Defined.

Lemma setup_no_enumeration_for_mock_or_empty_key_witness :
  ∃ evs,
    trace sample_mock_run.2 = trace (fresh_state (H := sample_const)) ++ evs ∧
    enumeration_calls evs = 0%nat.
Proof.
  apply (setup_no_enumeration_for_mock_or_empty_key (H := sample_const)
           (world_returning None)
           (submission (H := sample_const) "mock_api_key" 30 "1234567890")
           "mock_api_key" 30 "1234567890" _ sample_mock_run.1).
  - repeat split; vm_compute; reflexivity.
  - by right.
  - vm_compute. reflexivity.
Defined.

Lemma setup_creates_only_for_valid_fields_witness :
  "real_key" ≠ "" ∧ (8 ≤ 30)%Z.
Proof.
  apply (setup_creates_only_for_valid_fields (H := sample_const)
           (world_returning (Some sample_devices))
           (submission (H := sample_const) "real_key" 30 "4321")
           "real_key" 30 "4321" (fresh_state (H := sample_const))
           "Olarm Sensors" (default ∅ (created_data sample_remote_run.1))
           sample_remote_run.2).
  - repeat split; vm_compute; reflexivity.
  - vm_compute. reflexivity.
Defined.

Lemma setup_succeeds_witness :
  sample_mock_run =
  (Ret (async_create_entry "Olarm Sensors"
          (entry_data sample_entry)),
   {| hass_data :=
        <["olarm_sensors" :=
            registered (H := sample_const) sample_temp_entry
              (OlarmSensorsConfigFlow.mock_devices) ∅]>
          (hass_data (fresh_state (H := sample_const)));
      trace := loop_events sample_temp_entry
                 OlarmSensorsConfigFlow.mock_devices |}).
Proof.
  etransitivity.
  - apply (setup_succeeds (H := sample_const) (world_returning None)
             _ "mock_api_key" 30 "1234567890"
             sample_device1 [sample_device2] ∅).
    + repeat split; vm_compute; reflexivity.
    + discriminate.
    + lia.
    + vm_compute. reflexivity.
    + reflexivity.
    + vm_compute. reflexivity.
  - vm_compute. reflexivity.
Defined.

Lemma setup_sleeps_two_seconds_per_device_witness :
  ∃ api_key json evs,
    submission (H := sample_const) "mock_api_key" 30 "1234567890"
      !! "api_key" = Some api_key ∧
    discovered (world_returning None) api_key = Some json ∧
    trace sample_mock_run.2 =
      trace (after_enumeration api_key (fresh_state (H := sample_const))) ++
      evs ∧
    seconds_slept evs = (2 * Z.of_nat (length json))%Z ∧
    updates evs = length json ∧
    enumeration_calls evs = 0%nat.
Proof.
  apply (setup_sleeps_two_seconds_per_device (H := sample_const)
           (world_returning None)
           (submission (H := sample_const) "mock_api_key" 30 "1234567890")
           (fresh_state (H := sample_const)) "Olarm Sensors"
           (entry_data sample_entry) sample_mock_run.2).
  vm_compute. reflexivity.
Defined.

Lemma setup_update_failure_keeps_earlier_coordinators_witness :
  ∃ st',
    OlarmSensorsConfigFlow.async_step_user (H := sample_const)
      (world_failing_update "124" (ExternalError "timeout"))
      (Some (submission (H := sample_const) "mock_api_key" 30 "1234567890"))
      (fresh_state (H := sample_const)) =
      (Raise (ExternalError "timeout"), st') ∧
    dom <$> hass_data st' !! "olarm_sensors" = Some {[ "123" ]}.
Proof.
  eexists. split.
  - apply (setup_update_failure_keeps_earlier_coordinators
             (H := sample_const)
             (world_failing_update "124" (ExternalError "timeout"))
             _ "mock_api_key" 30 "1234567890"
             sample_device1 [sample_device2]
             [sample_device1] sample_device2 [] ∅).
    + repeat split; vm_compute; reflexivity.
    + discriminate.
    + lia.
    + vm_compute. reflexivity.
    + reflexivity.
    + intros device' ->%list_elem_of_singleton. reflexivity.
    + reflexivity.
    + vm_compute. reflexivity.
  - vm_compute. reflexivity.
Defined.

Lemma setup_without_domain_dictionary_raises_key_error_witness :
  (OlarmSensorsConfigFlow.async_step_user (H := sample_const)
     (world_returning None)
     (Some (submission (H := sample_const) "mock_api_key" 30 "1234567890"))
     state_without_domain).1 = Raise (KeyError "olarm_sensors").
Proof.
  erewrite (setup_without_domain_dictionary_raises_key_error
              (H := sample_const) (world_returning None)
              _ "mock_api_key" 30 "1234567890"
              sample_device1 [sample_device2]).
  - reflexivity.
  - repeat split; vm_compute; reflexivity.
  - discriminate.
  - lia.
  - vm_compute. reflexivity.
  - reflexivity.
  - reflexivity.
Defined.

Lemma setup_registers_last_device_per_id_witness :
  ∃ api_key scan_interval code first rest d d',
    submission (H := sample_const) "mock_api_key" 30 "1234567890"
      !! "api_key" = Some api_key ∧
    submission (H := sample_const) "mock_api_key" 30 "1234567890"
      !! "scan_interval" = Some scan_interval ∧
    submission (H := sample_const) "mock_api_key" 30 "1234567890"
      !! "olarm_arm_code" = Some code ∧
    discovered (world_returning None) api_key = Some (first :: rest) ∧
    hass_data (fresh_state (H := sample_const)) !! "olarm_sensors" = Some d ∧
    hass_data sample_mock_run.2 !! "olarm_sensors" = Some d' ∧
    ∀ id,
      d' !! id =
      registered_under (H := sample_const)
        (temp_entry_for (H := sample_const) api_key scan_interval
           (stored_alarm_code code) first rest)
        (first :: rest) d id.
Proof.
  apply (setup_registers_last_device_per_id (H := sample_const)
           (world_returning None)
           (submission (H := sample_const) "mock_api_key" 30 "1234567890")
           (fresh_state (H := sample_const)) "Olarm Sensors"
           (entry_data sample_entry) sample_mock_run.2).
  vm_compute. reflexivity.
Defined.

Lemma setup_coordinators_hold_entry_without_device_list_witness :
  ∃ api_key json d',
    submission (H := sample_const) "mock_api_key" 30 "1234567890"
      !! "api_key" = Some api_key ∧
    discovered (world_returning None) api_key = Some json ∧
    hass_data sample_mock_run.2 !! "olarm_sensors" = Some d' ∧
    ∀ device, device ∈ json →
      ∃ c, d' !! deviceId device = Some c ∧
           entry_domain (coordinator_entry c) = "olarm_sensors" ∧
           entry_data (coordinator_entry c) =
             delete "olarm_devices" (entry_data sample_entry) ∧
           entry_data sample_entry !! "olarm_devices" = Some (VDevices json).
Proof.
  apply (setup_coordinators_hold_entry_without_device_list (H := sample_const)
           (world_returning None)
           (submission (H := sample_const) "mock_api_key" 30 "1234567890")
           (fresh_state (H := sample_const)) "Olarm Sensors"
           (entry_data sample_entry) sample_mock_run.2).
  - sample_keys.
  - vm_compute. reflexivity.
Defined.

Lemma options_without_selection_raises_key_error_witness :
  OlarmOptionsFlow.async_step_init (H := sample_const)
    (H0 := sample_builtins) sample_entry (Some sample_unselected_submission) =
  Raise (KeyError "selected_olarm_devices").
Proof.
  apply (options_without_selection_raises_key_error (H := sample_const)
           (H0 := sample_builtins) _ _ (VList ["Device1"; "Device2"]) 2).
  - vm_compute. eauto.
  - vm_compute. eauto.
  - vm_compute. eauto.
  - vm_compute. reflexivity.
  - reflexivity.
  - vm_compute. reflexivity.
Defined.

Lemma options_stores_submitted_values_unchecked_witness :
  ∃ new,
    OlarmOptionsFlow.async_step_init (H := sample_const)
      (H0 := sample_builtins) sample_entry (Some sample_unchecked_submission) =
      Ret (async_create_entry "Olarm Sensors" new) ∧
    new !! "api_key" = Some (VStr "") ∧
    new !! "scan_interval" = Some (VInt 0) ∧
    new !! "selected_olarm_devices" = Some (VList []).
Proof.
  apply (options_stores_submitted_values_unchecked (H := sample_const)
           (H0 := sample_builtins) _ _ _ _ (VStr "4321") _
           (VList ["Device1"; "Device2"]) 2).
  - sample_keys.
  - vm_compute. reflexivity.
  - vm_compute. reflexivity.
  - vm_compute. reflexivity.
  - vm_compute. reflexivity.
  - vm_compute. reflexivity.
  - reflexivity.
Defined.

Lemma options_later_edit_overrides_witness :
  OlarmOptionsFlow.async_step_init (H := sample_const)
    (H0 := sample_builtins) sample_edited_entry
    (Some sample_unchecked_submission) =
  OlarmOptionsFlow.async_step_init (H := sample_const)
    (H0 := sample_builtins) sample_entry
    (Some sample_unchecked_submission).
Proof.
  refine (proj1 (options_later_edit_overrides (H := sample_const)
                   (H0 := sample_builtins) sample_entry sample_edited_entry
                   (options_submission (H := sample_const)
                      "new_key" 60 (VStr "1234567890") ["Device1"])
                   sample_unchecked_submission "Olarm Sensors"
                   (entry_data sample_edited_entry) _ _ _)).
  - sample_keys.
  - vm_compute. reflexivity.
  - reflexivity.
Defined.

Lemma options_saving_the_defaults_is_identity_witness :
  OlarmOptionsFlow.async_step_init (H := sample_const)
    (H0 := sample_builtins) sample_entry
    (Some (options_submission (H := sample_const)
             "mock_api_key" 30 (VStr "1234567890") ["Device1"; "Device2"])) =
  Ret (async_create_entry "Olarm Sensors" (entry_data sample_entry)).
Proof.
  destruct (options_saving_the_defaults_is_identity (H := sample_const)
              (H0 := sample_builtins) sample_entry
              (VStr "mock_api_key") 30 "1234567890"
              (VList ["Device1"; "Device2"]))
    as (schema & _ & Dk & Ds & Dc & Hsave).
  - sample_keys.
  - vm_compute. reflexivity.
  - vm_compute. reflexivity.
  - vm_compute. reflexivity.
  - vm_compute. reflexivity.
  - exists (VList ["Device1"; "Device2"]), 2.
    repeat split; vm_compute; reflexivity.
  - apply Hsave.
    + rewrite Dk. vm_compute. reflexivity.
    + rewrite Ds. vm_compute. reflexivity.
    + rewrite Dc. vm_compute. reflexivity.
    + vm_compute. reflexivity.
Defined.

Lemma wizard_keeps_the_discovered_devices_witness :
  entry_data sample_edited_entry !! "olarm_device_firmware" =
    Some (VStr "1.0") ∧
  entry_data sample_edited_entry !! "olarm_device_names" =
    Some (VList ["Device1"; "Device2"]) ∧
  entry_data sample_edited_entry !! "olarm_devices" =
    Some (VDevices [sample_device1; sample_device2]) ∧
  entry_data sample_edited_entry !! "olarm_device_amount" = Some (VInt 2).
Proof.
  destruct (wizard_keeps_the_discovered_devices (H := sample_const)
              (H0 := sample_builtins) [sample_device1; sample_device2]
              (entry_data sample_edited_entry))
    as ((first & rest & Hjson & Hf) & Hn & Hd & Ha & _).
  - sample_keys.
  - eapply (wizard_options (H := sample_const) (H0 := sample_builtins)
              _ sample_entry
              (options_submission (H := sample_const)
                 "new_key" 60 (VStr "1234567890") ["Device1"])
              "Olarm Sensors").
    + eapply (wizard_setup (H := sample_const) (H0 := sample_builtins)
                (world_returning None)
                (submission (H := sample_const)
                   "mock_api_key" 30 "1234567890")
                (fresh_state (H := sample_const)) "Olarm Sensors" _
                sample_mock_run.2 (VStr "mock_api_key")).
      * vm_compute. reflexivity.
      * vm_compute. reflexivity.
      * vm_compute. reflexivity.
    + vm_compute. reflexivity.
  - injection Hjson as <- <-. repeat split; assumption.
Defined.
